(** * safe-swim-nyc: the beach weather tool

    A shallow embedding of [src/mastra/tools/beachWeatherTool.ts]: the
    coordinate table, [getBeachWeather], [getSafetyAssessment],
    [getRecommendations] and [getUVWarning], followed by the properties
    of the safety engine that the specification states.

    Conventions of the embedding:
    - a JavaScript number is an IEEE 754 binary64 value ([float]);
    - a property that a JSON payload may lack has type [option _], where
      [None] is JavaScript's [undefined];
    - a string is a sequence of bytes; case mapping and trimming are those
      of ASCII text (bytes above 127 are left as they are);
    - code that can throw returns [result _]; a [TypeError] carries the
      message Node (V8) gives it;
    - the process environment, the network and the clock are fields of an
      explicit [World] that [getBeachWeather] reads. *)

From Stdlib Require Import Bool List String Ascii ZArith Lia Floats DecimalString.
Import ListNotations.

Open Scope string_scope.

(* Decimal literals such as 1609.34 denote the nearest binary64 value, as
   they do in JavaScript. *)
Set Warnings "-inexact-float".

(** ** JavaScript numbers, truthiness and [Math] *)

Module JS.

Definition number : Set := float.

Definition NaN : number := nan.

Definition isNaN (x : number) : bool := negb (x =? x)%float.

(** [ToNumber] on a value that is a number or [undefined]. *)
Definition ToNumber (v : option number) : number :=
  match v with
  | Some x => x
  | None => NaN
  end.

(** [ToBoolean] on a value that is a number or [undefined]: zero (of either
    sign), [NaN] and [undefined] are falsy. *)
Definition ToBoolean (v : option number) : bool :=
  match v with
  | Some x => negb ((x =? 0)%float || isNaN x)
  | None => false
  end.

(** [a < c] and [a > c] for a value [a] that is a number or [undefined]
    and a numeric literal [c]: [a] goes through [ToNumber] first. *)
Definition lt (a : option number) (c : number) : bool :=
  (ToNumber a <? c)%float.
Definition gt (a : option number) (c : number) : bool :=
  (c <? ToNumber a)%float.

Arguments lt a c%_float.
Arguments gt a c%_float.

(** Every binary64 value of magnitude at least 2^52 is an integer. *)
Definition two52 : number := 4503599627370496%float.

(** A zero result of [Math.floor] and [Math.round] has the sign of the
    argument: [Math.round(-0.3)] is [-0]. *)
Definition zero_like (x r : number) : number :=
  if (r =? 0)%float
  then (if (x <? 0)%float || (1 / x <? 0)%float then (-0)%float else 0%float)
  else r.

(** [Math.floor]: below 2^52 in magnitude, adding and removing 2^52 rounds
    to an integer, which is then corrected downwards. *)
Definition Math_floor (x : number) : number :=
  if (abs x <? two52)%float then
    let t := if (0 <=? x)%float then ((x + two52) - two52)%float
             else ((x - two52) + two52)%float in
    zero_like x (if (x <? t)%float then (t - 1)%float else t)
  else x.

(** [Math.round]: the nearest integer, a tie going to the larger one. *)
Definition Math_round (x : number) : number :=
  if (abs x <? two52)%float then
    let f := Math_floor x in
    zero_like x (if (0.5 <=? x - f)%float then (f + 1)%float else f)
  else x.

(** ** Strings *)

Definition is_upper (c : ascii) : bool :=
  let n := nat_of_ascii c in (65 <=? n)%nat && (n <=? 90)%nat.

Definition lower_char (c : ascii) : ascii :=
  if is_upper c then ascii_of_nat (nat_of_ascii c + 32) else c.

Fixpoint toLowerCase (s : string) : string :=
  match s with
  | EmptyString => EmptyString
  | String c r => String (lower_char c) (toLowerCase r)
  end.

(** White space of [String.prototype.trim] within ASCII: TAB, LF, VT, FF,
    CR and SPACE. *)
Definition is_space (c : ascii) : bool :=
  let n := nat_of_ascii c in
  ((9 <=? n)%nat && (n <=? 13)%nat) || (n =? 32)%nat.

Fixpoint trimStart (s : string) : string :=
  match s with
  | EmptyString => EmptyString
  | String c r => if is_space c then trimStart r else s
  end.

Fixpoint trimEnd (s : string) : string :=
  match s with
  | EmptyString => EmptyString
  | String c r =>
      match trimEnd r with
      | EmptyString => if is_space c then EmptyString else String c EmptyString
      | r' => String c r'
      end
  end.

Definition trim (s : string) : string := trimEnd (trimStart s).

(** [s.includes(pat)]: [pat] occurs in [s] as a contiguous substring. *)
Fixpoint includes (s pat : string) : bool :=
  prefix pat s ||
  match s with
  | EmptyString => false
  | String _ r => includes r pat
  end.

(** [parts.join(sep)] *)
Fixpoint join (sep : string) (parts : list string) : string :=
  match parts with
  | [] => ""
  | [p] => p
  | p :: rest => p ++ sep ++ join sep rest
  end.

End JS.

(** ** Exceptions and fallible code *)

(** What the tool throws. All three are instances of JavaScript's [Error]
    and carry a message. *)
Inductive exn : Set :=
| Error (message : string)
| TypeError (message : string)
| SyntaxError (message : string).

Definition message (e : exn) : string :=
  match e with
  | Error m | TypeError m | SyntaxError m => m
  end.

Inductive result (A : Type) : Type :=
| Throw (e : exn)
| Return (a : A).

Arguments Throw {A} e.
Arguments Return {A} a.

Definition bind {A B : Type} (r : result A) (k : A -> result B) : result B :=
  match r with
  | Throw e => Throw e
  | Return a => k a
  end.

Notation "x <- r ;; k" := (bind r (fun x => k))
  (at level 61, r at next level, right associativity).

(** The quotation mark, for messages that quote their argument. *)
Definition dq : string := String (ascii_of_nat 34) EmptyString.

(** Reading property [p] of [undefined] throws; V8 words it like this. *)
Definition cannot_read (p : string) : exn :=
  TypeError ("Cannot read properties of undefined (reading '" ++ p ++ "')").

(** [o.p] where [o] may be [undefined] and [f] projects [p]. *)
Definition member {A B : Type} (o : option A) (p : string) (f : A -> B)
  : result B :=
  match o with
  | Some a => Return (f a)
  | None => Throw (cannot_read p)
  end.

(** ** The coordinate table *)

Record Beach : Set := {
  lat : JS.number;
  lon : JS.number;
  name : string
}.

(** [beachCoordinates]: an object literal; its own keys in insertion order. *)
Definition beachCoordinates : list (string * Beach) :=
  [ ("coney island", {| lat := 40.5755; lon := -73.9707; name := "Coney Island Beach" |});
    ("brighton beach", {| lat := 40.5776; lon := -73.9614; name := "Brighton Beach" |});
    ("manhattan beach", {| lat := 40.5888; lon := -73.9378; name := "Manhattan Beach" |});
    ("rockaway beach", {| lat := 40.5892; lon := -73.8131; name := "Rockaway Beach" |});
    ("orchard beach", {| lat := 40.8670; lon := -73.7854; name := "Orchard Beach" |});
    ("south beach", {| lat := 40.5886; lon := -74.0776; name := "South Beach" |});
    ("midland beach", {| lat := 40.5653; lon := -74.0845; name := "Midland Beach" |});
    ("cedar grove beach", {| lat := 40.5434; lon := -74.1045; name := "Cedar Grove Beach" |});
    ("wolfes pond beach", {| lat := 40.5234; lon := -74.1987; name := "Wolfe's Pond Beach" |}) ]%float.

(** [Object.keys(beachCoordinates)] *)
Definition Object_keys {V : Type} (o : list (string * V)) : list string :=
  map fst o.

Fixpoint own_property {V : Type} (o : list (string * V)) (k : string)
  : option V :=
  match o with
  | [] => None
  | (k', v) :: rest => if String.eqb k' k then Some v else own_property rest k
  end.

(** What [beachCoordinates[k]] can evaluate to. The table is a plain object,
    so a key it does not own is looked up in [Object.prototype]: a method
    (a function object, with its [name]) or, for [__proto__], the prototype
    object itself. None of these has [lat] or [lon], and all are truthy. *)
Inductive looked_up : Set :=
| OwnEntry (b : Beach)
| InheritedMethod (fname : string)
| PrototypeObject.

Definition Object_prototype : list (string * looked_up) :=
  [ ("constructor", InheritedMethod "Object");
    ("__defineGetter__", InheritedMethod "__defineGetter__");
    ("__defineSetter__", InheritedMethod "__defineSetter__");
    ("hasOwnProperty", InheritedMethod "hasOwnProperty");
    ("__lookupGetter__", InheritedMethod "__lookupGetter__");
    ("__lookupSetter__", InheritedMethod "__lookupSetter__");
    ("isPrototypeOf", InheritedMethod "isPrototypeOf");
    ("propertyIsEnumerable", InheritedMethod "propertyIsEnumerable");
    ("toString", InheritedMethod "toString");
    ("valueOf", InheritedMethod "valueOf");
    ("toLocaleString", InheritedMethod "toLocaleString");
    ("__proto__", PrototypeObject) ].

(** [beachCoordinates[k]]; [None] is [undefined]. *)
Definition get_beach (k : string) : option looked_up :=
  match own_property beachCoordinates k with
  | Some b => Some (OwnEntry b)
  | None => own_property Object_prototype k
  end.

Definition beach_lat (b : looked_up) : option JS.number :=
  match b with
  | OwnEntry e => Some (lat e)
  | _ => None
  end.

Definition beach_lon (b : looked_up) : option JS.number :=
  match b with
  | OwnEntry e => Some (lon e)
  | _ => None
  end.

Definition beach_name (b : looked_up) : option string :=
  match b with
  | OwnEntry e => Some (name e)
  | InheritedMethod f => Some f
  | PrototypeObject => None
  end.

(** ** The provider payload: [OpenWeatherResponse]

    The interface is only a cast in the source ([as OpenWeatherResponse]):
    nothing checks the payload, so every property may be missing. *)

Record WeatherEntry : Set := {
  weather_main : option string;
  weather_description : option string;
  weather_id : option JS.number
}.

Record MainBlock : Set := {
  main_temp : option JS.number;
  main_feels_like : option JS.number;
  main_temp_min : option JS.number;
  main_temp_max : option JS.number;
  main_pressure : option JS.number;
  main_humidity : option JS.number
}.

Record WindBlock : Set := {
  wind_speed : option JS.number;
  wind_deg : option JS.number;
  wind_gust : option JS.number
}.

Record CloudsBlock : Set := {
  clouds_all : option JS.number
}.

Record SysBlock : Set := {
  sys_sunrise : option JS.number;
  sys_sunset : option JS.number
}.

Record OpenWeatherResponse : Set := {
  weather : option (list WeatherEntry);
  main : option MainBlock;
  visibility : option JS.number;
  wind : option WindBlock;
  clouds : option CloudsBlock;
  dt : option JS.number;
  sys : option SysBlock;
  response_name : option string
}.

(** [weatherData.weather[0].main] *)
Definition weather0 (weatherData : OpenWeatherResponse)
  : result (option WeatherEntry) :=
  member (weather weatherData) "0" (fun a => nth_error a 0).

Definition weather0_main (weatherData : OpenWeatherResponse)
  : result (option string) :=
  w0 <- weather0 weatherData ;;
  member w0 "main" weather_main.

Definition weather0_description (weatherData : OpenWeatherResponse)
  : result (option string) :=
  w0 <- weather0 weatherData ;;
  member w0 "description" weather_description.

(** [weatherData.weather[0].main.toLowerCase()] *)
Definition lower_conditions (weatherData : OpenWeatherResponse)
  : result string :=
  m <- weather0_main weatherData ;;
  member m "toLowerCase" JS.toLowerCase.

(** ** The clock *)

Record Date : Set := {
  epochMs : Z;            (* milliseconds since the epoch, UTC *)
  timezoneOffset : Z      (* minutes, UTC minus local time *)
}.

(** [now.getHours()]: the hour of the day in local time, 0 to 23. *)
Definition getHours (d : Date) : Z :=
  ((epochMs d - timezoneOffset d * 60000) / 3600000) mod 24.

(** ** The safety engine *)

Definition DANGEROUS : string := "DANGEROUS - DO NOT SWIM".
Definition POOR : string := "POOR - Swimming not recommended".
Definition CAUTION : string := "CAUTION - Be careful, check with lifeguards".
Definition GOOD : string := "GOOD - Safe for swimming".

(** [getSafetyAssessment]. [||] evaluates its right operand only when the
    left one is false, so [weatherData.clouds.all] is read last, and only
    when no earlier test has decided. *)
Definition getSafetyAssessment (weatherData : OpenWeatherResponse)
  : result string :=
  temp <- member (main weatherData) "temp" main_temp ;;
  windSpeed <- member (wind weatherData) "speed" wind_speed ;;
  conditions <- lower_conditions weatherData ;;
  let visibility := visibility weatherData in
  if JS.includes conditions "thunderstorm" || JS.includes conditions "storm"
  then Return DANGEROUS
  else if JS.gt windSpeed 15 || JS.lt temp 60
          || JS.includes conditions "rain" || JS.lt visibility 1000
  then Return POOR
  else if JS.gt windSpeed 10 || JS.lt temp 70
          || JS.includes conditions "drizzle"
  then Return CAUTION
  else
    cloudCover <- member (clouds weatherData) "all" clouds_all ;;
    if JS.gt cloudCover 80 then Return CAUTION else Return GOOD.

(** The advisory lines, in the order in which [getRecommendations] can
    push them. *)

Definition LIFEGUARD_REMINDER : string :=
  "üèä Swim only when lifeguards are on duty (10 AM - 6 PM during beach season)".

Definition THUNDERSTORM_WARNING : string :=
  "‚ö†Ô∏è DANGER: Exit water immediately - lightning and severe weather risk".

Definition RAIN_CAUTION : string :=
  "üåßÔ∏è Rainy conditions - poor visibility and potential water quality issues".

Definition GUST_WARNING : string :=
  "üí® Very strong wind gusts - dangerous wave conditions likely".

Definition RIP_CURRENT_WARNING : string :=
  "üåä High winds create dangerous rip currents - extreme caution advised".

Definition MODERATE_WIND_CAUTION : string :=
  "üå¨Ô∏è Moderate winds may create strong currents - stay alert".

Definition HYPOTHERMIA_WARNING : string :=
  "üß• Cold air temperature - water will be very cold, hypothermia risk".

Definition COOL_SUGGESTION : string :=
  "üå°Ô∏è Cool conditions - water may feel cold, consider wetsuit".

Definition HEAT_WARNING : string :=
  "üî• Very hot conditions - frequent water breaks and shade essential".

Definition SUNSCREEN_REMINDER : string :=
  "‚òÄÔ∏è Hot day - apply sunscreen frequently, stay hydrated".

Definition VISIBILITY_WARNING : string :=
  "üëÅÔ∏è Poor visibility - difficulty seeing hazards in water".

Definition HEAT_EXHAUSTION_WARNING : string :=
  "üíß High humidity - heat exhaustion risk, take frequent breaks".

Definition EXCELLENT_NOTE : string :=
  "‚úÖ Excellent beach conditions - perfect for swimming and beach activities".

(** [recommendations.push(s)] *)
Definition push (recommendations : list string) (s : string) : list string :=
  recommendations ++ [s].

(** [if (c) recommendations.push(s)] *)
Definition push_if (c : bool) (s : string) (recommendations : list string)
  : list string :=
  if c then push recommendations s else recommendations.

Definition getRecommendations (weatherData : OpenWeatherResponse)
  : result (list string) :=
  let recommendations : list string := [] in
  temp <- member (main weatherData) "temp" main_temp ;;
  feelsLike <- member (main weatherData) "feels_like" main_feels_like ;;
  windSpeed <- member (wind weatherData) "speed" wind_speed ;;
  windGust <- member (wind weatherData) "gust" wind_gust ;;
  conditions <- lower_conditions weatherData ;;
  humidity <- member (main weatherData) "humidity" main_humidity ;;
  let visibility := visibility weatherData in
  (* Always include lifeguard reminder *)
  let recommendations := push recommendations LIFEGUARD_REMINDER in
  (* Weather-specific warnings *)
  let recommendations :=
    push_if (JS.includes conditions "thunderstorm") THUNDERSTORM_WARNING
      recommendations in
  let recommendations :=
    push_if (JS.includes conditions "rain") RAIN_CAUTION recommendations in
  (* Wind conditions *)
  let recommendations :=
    if JS.ToBoolean windGust && JS.gt windGust 20
    then push recommendations GUST_WARNING
    else if JS.gt windSpeed 15
    then push recommendations RIP_CURRENT_WARNING
    else if JS.gt windSpeed 10
    then push recommendations MODERATE_WIND_CAUTION
    else recommendations in
  (* Temperature guidance *)
  let recommendations :=
    if JS.lt temp 65
    then push recommendations HYPOTHERMIA_WARNING
    else if JS.lt temp 75
    then push recommendations COOL_SUGGESTION
    else recommendations in
  let recommendations :=
    if JS.gt feelsLike 90
    then push recommendations HEAT_WARNING
    else if JS.gt feelsLike 85
    then push recommendations SUNSCREEN_REMINDER
    else recommendations in
  (* Visibility and other conditions *)
  let recommendations :=
    push_if (JS.lt visibility 1000) VISIBILITY_WARNING recommendations in
  let recommendations :=
    push_if (JS.gt humidity 80 && JS.gt temp 80) HEAT_EXHAUSTION_WARNING
      recommendations in
  (* General beach safety *)
  let recommendations :=
    push_if (JS.includes conditions "clear" && JS.gt temp 75
             && JS.lt windSpeed 10) EXCELLENT_NOTE recommendations in
  Return recommendations.

Definition UV_HIGH : string :=
  "High UV exposure risk - use SPF 30+ sunscreen and reapply every 2 hours".
Definition UV_MODERATE : string :=
  "Moderate UV exposure - sunscreen recommended".

(** [getUVWarning]; [now] is what [new Date()] returns when it is called. *)
Definition getUVWarning (now : Date) (weatherData : OpenWeatherResponse)
  : result (option string) :=
  temp <- member (main weatherData) "temp" main_temp ;;
  cloudCover <- member (clouds weatherData) "all" clouds_all ;;
  let hour := getHours now in
  (* Peak UV hours with clear skies *)
  if (10 <=? hour)%Z && (hour <=? 16)%Z && JS.lt cloudCover 30 && JS.gt temp 70
  then Return (Some UV_HIGH)
  (* Moderate UV conditions *)
  else if (9 <=? hour)%Z && (hour <=? 17)%Z && JS.lt cloudCover 70
  then Return (Some UV_MODERATE)
  else Return None.

(** ** The world around the tool *)

(** The request URL, by its query parameters ([units=imperial] is fixed).
    A coordinate that is [undefined] is interpolated as such. *)
Record Request : Set := {
  query_lat : option JS.number;
  query_lon : option JS.number;
  query_appid : string
}.

Record Response : Type := {
  ok : bool;
  status : nat;
  statusText : string;
  json : result OpenWeatherResponse   (* [await response.json()] *)
}.

Record World : Type := {
  OPENWEATHER_API_KEY : option string;    (* [process.env.OPENWEATHER_API_KEY] *)
  fetch : Request -> result Response;     (* [await fetch(weatherUrl)] *)
  clock : nat -> Date                     (* the n-th [new Date()] of the call *)
}.

(** ** The tool's output *)

Module Result.

Record Coordinates : Set := {
  latitude : option JS.number;
  longitude : option JS.number
}.

Record Weather : Set := {
  temperature : JS.number;
  feelsLike : JS.number;
  humidity : option JS.number;
  windSpeed : JS.number;
  windDirection : option JS.number;
  windGust : option JS.number;
  conditions : option string;
  description : option string;
  visibility : JS.number;
  pressure : option JS.number;
  cloudCover : option JS.number
}.

Record Safety : Set := {
  swimmingConditions : string;
  recommendations : list string;
  uvWarning : option string
}.

Record t : Set := {
  beach : option string;
  coordinates : Coordinates;
  weather : Weather;
  safety : Safety;
  timestamp : Date      (* rendered by [toISOString()] *)
}.

End Result.

(** [`${response.status}`] *)
Definition status_string (n : nat) : string :=
  NilZero.string_of_uint (Nat.to_uint n).

(** The weather sub-record: display values, read in the order of the object
    literal. *)
Definition display (weatherData : OpenWeatherResponse) : result Result.Weather :=
  temp <- member (main weatherData) "temp" main_temp ;;
  feels_like <- member (main weatherData) "feels_like" main_feels_like ;;
  humidity <- member (main weatherData) "humidity" main_humidity ;;
  speed <- member (wind weatherData) "speed" wind_speed ;;
  deg <- member (wind weatherData) "deg" wind_deg ;;
  gust <- member (wind weatherData) "gust" wind_gust ;;
  conditions <- weather0_main weatherData ;;
  description <- weather0_description weatherData ;;
  pressure <- member (main weatherData) "pressure" main_pressure ;;
  cloudCover <- member (clouds weatherData) "all" clouds_all ;;
  Return {|
    Result.temperature := JS.Math_round (JS.ToNumber temp);
    Result.feelsLike := JS.Math_round (JS.ToNumber feels_like);
    Result.humidity := humidity;
    Result.windSpeed := JS.Math_round (JS.ToNumber speed);
    Result.windDirection := deg;
    Result.windGust :=
      if JS.ToBoolean gust then Some (JS.Math_round (JS.ToNumber gust))
      else None;
    Result.conditions := conditions;
    Result.description := description;
    (* Convert meters to miles *)
    Result.visibility :=
      (JS.Math_round (JS.ToNumber (visibility weatherData) / 1609.34 * 10)
       / 10)%float;
    Result.pressure := pressure;
    Result.cloudCover := cloudCover
  |}.

(** The safety sub-record: the three functions of the engine, each on the
    payload as it was received. *)
Definition assess (now : Date) (weatherData : OpenWeatherResponse)
  : result Result.Safety :=
  swimmingConditions <- getSafetyAssessment weatherData ;;
  recommendations <- getRecommendations weatherData ;;
  uvWarning <- getUVWarning now weatherData ;;
  Return {|
    Result.swimmingConditions := swimmingConditions;
    Result.recommendations := recommendations;
    Result.uvWarning := uvWarning
  |}.

(** [!apiKey]: an unset or empty key is refused. *)
Definition configured (apiKey : option string) : option string :=
  match apiKey with
  | Some "" | None => None
  | Some k => Some k
  end.

Definition not_found (beachName : string) : exn :=
  Error ("Beach " ++ dq ++ beachName ++ dq ++ " not found. Available beaches: "
         ++ JS.join ", " (Object_keys beachCoordinates)).

(** The body of the [try] block. *)
Definition getBeachWeather_try (world : World) (beachName : string)
  : result Result.t :=
  let normalizedName := JS.trim (JS.toLowerCase beachName) in
  match get_beach normalizedName with
  | None => Throw (not_found beachName)
  | Some beach =>
      match configured (OPENWEATHER_API_KEY world) with
      | None =>
          Throw (Error "OpenWeather API key not configured in environment variables")
      | Some apiKey =>
          response <- fetch world {| query_lat := beach_lat beach;
                                     query_lon := beach_lon beach;
                                     query_appid := apiKey |} ;;
          if negb (ok response)
          then Throw (Error ("OpenWeather API error: "
                             ++ status_string (status response) ++ " "
                             ++ statusText response))
          else
            weatherData <- json response ;;
            weather <- display weatherData ;;
            safety <- assess (clock world 0) weatherData ;;
            Return {|
              Result.beach := beach_name beach;
              Result.coordinates :=
                {| Result.latitude := beach_lat beach;
                   Result.longitude := beach_lon beach |};
              Result.weather := weather;
              Result.safety := safety;
              Result.timestamp := clock world 1
            |}
      end
  end.

(** The [catch] clause: whatever was thrown is rethrown as an [Error] whose
    message embeds the original one. *)
Definition getBeachWeather (world : World) (beachName : string)
  : result Result.t :=
  match getBeachWeather_try world beachName with
  | Throw error =>
      Throw (Error ("Failed to fetch beach weather data: " ++ message error))
  | Return r => Return r
  end.

(** ** Views of a payload used to state properties *)

(** The leaf values the engine reads, as the expressions of the source
    evaluate when the enclosing object is there. *)
Definition raw_temp (w : OpenWeatherResponse) : option JS.number :=
  match main w with Some m => main_temp m | None => None end.
Definition raw_feels_like (w : OpenWeatherResponse) : option JS.number :=
  match main w with Some m => main_feels_like m | None => None end.
Definition raw_humidity (w : OpenWeatherResponse) : option JS.number :=
  match main w with Some m => main_humidity m | None => None end.
Definition raw_speed (w : OpenWeatherResponse) : option JS.number :=
  match wind w with Some x => wind_speed x | None => None end.
Definition raw_gust (w : OpenWeatherResponse) : option JS.number :=
  match wind w with Some x => wind_gust x | None => None end.
Definition raw_cloud (w : OpenWeatherResponse) : option JS.number :=
  match clouds w with Some c => clouds_all c | None => None end.

(** [weather[0].main], when the list, its first entry and the text exist. *)
Definition raw_text (w : OpenWeatherResponse) : option string :=
  match weather w with
  | Some (e :: _) => weather_main e
  | _ => None
  end.

Definition present {A : Type} (o : option A) : bool :=
  match o with Some _ => true | None => false end.

(** The objects that the property reads of the tool go through: without
    one of them a read throws; with all of them no read can. *)
Definition has_blocks (w : OpenWeatherResponse) : bool :=
  present (main w) && present (wind w) && present (clouds w)
  && present (raw_text w).

(** What [getRecommendations] needs: it never touches [clouds]. *)
Definition has_advice_blocks (w : OpenWeatherResponse) : bool :=
  present (main w) && present (wind w) && present (raw_text w).

(** The payload cut down to what the engine reads: the condition keyword of
    the first weather entry, temperature, feels-like and humidity, wind
    speed and gust, visibility and cloud cover. *)
Definition observation (w : OpenWeatherResponse) : OpenWeatherResponse :=
  {| weather :=
       option_map
         (fun entries =>
            match entries with
            | [] => []
            | e :: _ => [ {| weather_main := weather_main e;
                             weather_description := None;
                             weather_id := None |} ]
            end) (weather w);
     main :=
       option_map
         (fun m => {| main_temp := main_temp m;
                      main_feels_like := main_feels_like m;
                      main_temp_min := None;
                      main_temp_max := None;
                      main_pressure := None;
                      main_humidity := main_humidity m |}) (main w);
     visibility := visibility w;
     wind :=
       option_map
         (fun x => {| wind_speed := wind_speed x;
                      wind_deg := None;
                      wind_gust := wind_gust x |}) (wind w);
     clouds := clouds w;
     dt := None;
     sys := None;
     response_name := None |}.


(** The thirteen advisory lines in the order of their triggers. *)
Definition ADVISORIES : list string :=
  [ LIFEGUARD_REMINDER; THUNDERSTORM_WARNING; RAIN_CAUTION;
    GUST_WARNING; RIP_CURRENT_WARNING; MODERATE_WIND_CAUTION;
    HYPOTHERMIA_WARNING; COOL_SUGGESTION;
    HEAT_WARNING; SUNSCREEN_REMINDER;
    VISIBILITY_WARNING; HEAT_EXHAUSTION_WARNING; EXCELLENT_NOTE ].

(** Which of the thirteen triggers fire, in the same order. An [else if]
    fires only when the tests before it in its chain have failed. *)
Definition triggers (w : OpenWeatherResponse) : list bool :=
  let conditions :=
    match raw_text w with Some t => JS.toLowerCase t | None => "" end in
  let gusty := JS.ToBoolean (raw_gust w) && JS.gt (raw_gust w) 20 in
  [ true;
    JS.includes conditions "thunderstorm";
    JS.includes conditions "rain";
    gusty;
    negb gusty && JS.gt (raw_speed w) 15;
    negb gusty && negb (JS.gt (raw_speed w) 15) && JS.gt (raw_speed w) 10;
    JS.lt (raw_temp w) 65;
    negb (JS.lt (raw_temp w) 65) && JS.lt (raw_temp w) 75;
    JS.gt (raw_feels_like w) 90;
    negb (JS.gt (raw_feels_like w) 90) && JS.gt (raw_feels_like w) 85;
    JS.lt (visibility w) 1000;
    JS.gt (raw_humidity w) 80 && JS.gt (raw_temp w) 80;
    JS.includes conditions "clear" && JS.gt (raw_temp w) 75
      && JS.lt (raw_speed w) 10 ].

(** The entries of [xs] whose flag in [bs] is set, in the order of [xs]. *)
Fixpoint select {A : Type} (bs : list bool) (xs : list A) : list A :=
  match bs, xs with
  | b :: bs', x :: xs' => if b then x :: select bs' xs' else select bs' xs'
  | _, _ => []
  end.

(** How many flags are set. *)
Definition count_true (bs : list bool) : nat :=
  fold_right (fun (b : bool) n => Nat.b2n b + n) 0 bs.

(** Flags [bs] restricted to the positions that [cs] flags too. *)
Definition both (bs cs : list bool) : list bool :=
  map (fun bc : bool * bool => fst bc && snd bc) (combine bs cs).

(** [l] is [m] with some entries left out, the order kept. *)
Inductive subsequence {A : Type} : list A -> list A -> Prop :=
| subsequence_nil : subsequence [] []
| subsequence_skip x l m : subsequence l m -> subsequence l (x :: m)
| subsequence_keep x l m : subsequence l m -> subsequence (x :: l) (x :: m).

(** The wind-related advisory lines. *)
Definition is_wind_advisory (s : string) : bool :=
  String.eqb s GUST_WARNING || String.eqb s RIP_CURRENT_WARNING
  || String.eqb s MODERATE_WIND_CAUTION.

Definition wind_entries (recommendations : list string) : list string :=
  filter is_wind_advisory recommendations.

(** ** The classifier as the specification words it

    These definitions follow the specification, not the source: a closed
    condition category derived from the condition text, four ordered
    severity tiers, and a rule table of which the most severe matching
    tier is reported. *)

Inductive Category : Set :=
| thunderstorm | rain | drizzle | cloudy | clear | other_or_unmapped.

Definition Category_eqb (a b : Category) : bool :=
  match a, b with
  | thunderstorm, thunderstorm | rain, rain | drizzle, drizzle
  | cloudy, cloudy | clear, clear | other_or_unmapped, other_or_unmapped => true
  | _, _ => false
  end.

(** Case-insensitive substring match in the priority order
    thunderstorm > rain > drizzle > clouds > clear > other. *)
Definition spec_category (text : string) : Category :=
  let t := JS.toLowerCase text in
  if JS.includes t "thunderstorm" then thunderstorm
  else if JS.includes t "rain" then rain
  else if JS.includes t "drizzle" then drizzle
  else if JS.includes t "clouds" then cloudy
  else if JS.includes t "clear" then clear
  else other_or_unmapped.

Inductive Verdict : Set := V_GOOD | V_CAUTION | V_POOR | V_DANGEROUS.

Definition severity (v : Verdict) : nat :=
  match v with
  | V_GOOD => 0 | V_CAUTION => 1 | V_POOR => 2 | V_DANGEROUS => 3
  end.

Definition more_severe (a b : Verdict) : Verdict :=
  if (severity a <? severity b)%nat then b else a.

(** The most severe tier among the rules that matched; [V_GOOD] when none
    did. *)
Definition most_severe (rules : list (bool * Verdict)) : Verdict :=
  fold_right (fun (r : bool * Verdict) acc =>
                if fst r then more_severe (snd r) acc else acc)
    V_GOOD rules.

Definition verdict_text (v : Verdict) : string :=
  match v with
  | V_GOOD => GOOD
  | V_CAUTION => CAUTION
  | V_POOR => POOR
  | V_DANGEROUS => DANGEROUS
  end.

(** The severity rules, each checked on its own. [stormy] is the test of
    the DANGEROUS rule; the other rules are those of the specification. *)
Definition severity_rules (stormy : bool) (w : OpenWeatherResponse)
  : list (bool * Verdict) :=
  let category :=
    match raw_text w with
    | Some t => spec_category t
    | None => other_or_unmapped
    end in
  [ (stormy, V_DANGEROUS);
    (JS.gt (raw_speed w) 15, V_POOR);
    (JS.lt (raw_temp w) 60, V_POOR);
    (Category_eqb category rain, V_POOR);
    (JS.lt (visibility w) 1000, V_POOR);
    (JS.gt (raw_speed w) 10, V_CAUTION);
    (JS.lt (raw_temp w) 70, V_CAUTION);
    (Category_eqb category drizzle, V_CAUTION);
    (JS.gt (raw_cloud w) 80, V_CAUTION) ].

(** The classifier of the specification: DANGEROUS is keyed to the
    thunderstorm category. *)
Definition spec_verdict (w : OpenWeatherResponse) : Verdict :=
  let category :=
    match raw_text w with
    | Some t => spec_category t
    | None => other_or_unmapped
    end in
  most_severe (severity_rules (Category_eqb category thunderstorm) w).

(** The rule table that the source implements: DANGEROUS is keyed to the
    substring [storm] of the lowercased condition text. *)
Definition code_verdict (w : OpenWeatherResponse) : Verdict :=
  let conditions :=
    match raw_text w with Some t => JS.toLowerCase t | None => "" end in
  most_severe (severity_rules (JS.includes conditions "storm") w).

(** ** Sample inputs *)

Definition sample_payload (conditions : string) (temp feels_like : JS.number)
  (speed : JS.number) (gust : option JS.number)
  (humidity visibility cloud : JS.number) : OpenWeatherResponse :=
  {| weather := Some [ {| weather_main := Some conditions;
                          weather_description := Some conditions;
                          weather_id := Some 800%float |} ];
     main := Some {| main_temp := Some temp;
                     main_feels_like := Some feels_like;
                     main_temp_min := Some temp;
                     main_temp_max := Some temp;
                     main_pressure := Some 1013%float;
                     main_humidity := Some humidity |};
     visibility := Some visibility;
     wind := Some {| wind_speed := Some speed;
                     wind_deg := Some 180%float;
                     wind_gust := gust |};
     clouds := Some {| clouds_all := Some cloud |};
     dt := Some 1717243200%float;
     sys := Some {| sys_sunrise := Some 1717233000%float;
                    sys_sunset := Some 1717287000%float |};
     response_name := Some "Brooklyn" |}.

Arguments sample_payload conditions (temp feels_like speed)%_float gust
  (humidity visibility cloud)%_float.

(** A payload with nothing in it: the body of an error response. *)
Definition empty_payload : OpenWeatherResponse :=
  {| weather := None; main := None; visibility := None; wind := None;
     clouds := None; dt := None; sys := None; response_name := None |}.

(** A calm, clear, warm day. *)
Definition fair_day : OpenWeatherResponse :=
  sample_payload "Clear" 80 82 5 None 50 10000 10.

(** [fair_day] as a payload that lacks [main.temp]. *)
Definition missing_temperature : OpenWeatherResponse :=
  {| weather := weather fair_day;
     main := Some {| main_temp := None;
                     main_feels_like := Some 82%float;
                     main_temp_min := Some 80%float;
                     main_temp_max := Some 80%float;
                     main_pressure := Some 1013%float;
                     main_humidity := Some 50%float |};
     visibility := visibility fair_day;
     wind := wind fair_day;
     clouds := clouds fair_day;
     dt := dt fair_day;
     sys := sys fair_day;
     response_name := response_name fair_day |}.

(** A clear day at 59.6 degrees, and the same day with the temperatures
    it is displayed with. *)
Definition boundary_day : OpenWeatherResponse :=
  sample_payload "Clear" 59.6 59.6 5 None 50 10000 10.
Definition boundary_day_as_displayed : OpenWeatherResponse :=
  sample_payload "Clear" 60 60 5 None 50 10000 10.

(** A windless day whose payload reports a gust of 0, and the same day
    without a gust field. *)
Definition still_air : OpenWeatherResponse :=
  sample_payload "Clear" 80 82 0 (Some 0%float) 50 10000 10.
Definition still_air_no_gust : OpenWeatherResponse :=
  sample_payload "Clear" 80 82 0 None 50 10000 10.

(** The gust example of the specification: a gust of 25 mph over a
    sustained wind of 8 mph. *)
Definition gusty_day : OpenWeatherResponse :=
  sample_payload "Clouds" 72 72 8 (Some 25%float) 50 10000 50.

(** The same day under a tropical storm, and under a thunderstorm with
    rain. *)
Definition tropical_storm : OpenWeatherResponse :=
  sample_payload "Tropical Storm" 80 82 5 None 50 10000 10.
Definition thunderstorm_with_rain : OpenWeatherResponse :=
  sample_payload "Thunderstorm with rain" 80 82 5 None 50 10000 10.

(** Midday in New York on 1 June 2024 (UTC-4), and the evening before. *)
Definition noon : Date := {| epochMs := 1717257600000; timezoneOffset := 240 |}.
Definition evening : Date := {| epochMs := 1717200000000; timezoneOffset := 240 |}.

Definition half_past_noon : Date :=
  {| epochMs := 1717259400000; timezoneOffset := 240 |}.

(** [fair_day] as another station reports it: a different pressure, wind
    direction, description, station and time stamp, the same observation. *)
Definition fair_day_elsewhere : OpenWeatherResponse :=
  {| weather := Some [ {| weather_main := Some "Clear";
                          weather_description := Some "clear sky";
                          weather_id := Some 800%float |} ];
     main := Some {| main_temp := Some 80%float;
                     main_feels_like := Some 82%float;
                     main_temp_min := Some 78%float;
                     main_temp_max := Some 83%float;
                     main_pressure := Some 1009%float;
                     main_humidity := Some 50%float |};
     visibility := Some 10000%float;
     wind := Some {| wind_speed := Some 5%float;
                     wind_deg := Some 90%float;
                     wind_gust := None |};
     clouds := Some {| clouds_all := Some 10%float |};
     dt := Some 1717259400%float;
     sys := None;
     response_name := Some "Queens" |}.

(** A world in which the key is set and the provider answers 200 with the
    given payload. *)
Definition world_serving (weatherData : OpenWeatherResponse) : World :=
  {| OPENWEATHER_API_KEY := Some "test-key";
     fetch := fun _ => Return {| ok := true; status := 200;
                                 statusText := "OK";
                                 json := Return weatherData |};
     clock := fun _ => noon |}.

(** What the tool returns for [boundary_day] at Coney Island at [noon]. *)
Definition boundary_result : Result.t :=
  {| Result.beach := Some "Coney Island Beach";
     Result.coordinates :=
       {| Result.latitude := Some 40.5755%float;
          Result.longitude := Some (-73.9707)%float |};
     Result.weather :=
       {| Result.temperature := 60%float;
          Result.feelsLike := 60%float;
          Result.humidity := Some 50%float;
          Result.windSpeed := 5%float;
          Result.windDirection := Some 180%float;
          Result.windGust := None;
          Result.conditions := Some "Clear";
          Result.description := Some "Clear";
          Result.visibility := 6.2%float;
          Result.pressure := Some 1013%float;
          Result.cloudCover := Some 10%float |};
     Result.safety :=
       {| Result.swimmingConditions := POOR;
          Result.recommendations := [LIFEGUARD_REMINDER; HYPOTHERMIA_WARNING];
          Result.uvWarning := Some UV_MODERATE |};
     Result.timestamp := noon |}.

(** A world in which no key is set. *)
Definition world_without_key : World :=
  {| OPENWEATHER_API_KEY := None;
     fetch := fun _ => Throw (TypeError "fetch failed");
     clock := fun _ => noon |}.

(** A world in which the provider rejects a request that lacks coordinates
    and serves [fair_day] otherwise. *)
Definition world_checking_coordinates : World :=
  {| OPENWEATHER_API_KEY := Some "test-key";
     fetch := fun request =>
       match query_lat request, query_lon request with
       | Some _, Some _ =>
           Return {| ok := true; status := 200; statusText := "OK";
                     json := Return fair_day |}
       | _, _ =>
           Return {| ok := false; status := 400; statusText := "Bad Request";
                     json := Return empty_payload |}
       end;
     clock := fun _ => noon |}.

(** ** Inputs for the further properties *)

(** The prefix the [catch] clause puts before every message. *)
Definition FAILED : string := "Failed to fetch beach weather data: ".

(** [beachName.toLowerCase().trim()] *)
Definition normalize (beachName : string) : string :=
  JS.trim (JS.toLowerCase beachName).

(** Strings made of ASCII white space only. *)
Fixpoint all_space (s : string) : bool :=
  match s with
  | EmptyString => true
  | String c r => JS.is_space c && all_space r
  end.


(** A world in which the provider refuses the key. *)
Definition world_unauthorized : World :=
  {| OPENWEATHER_API_KEY := Some "expired-key";
     fetch := fun _ =>
       Return {| ok := false; status := 401; statusText := "Unauthorized";
                 json := Return empty_payload |};
     clock := fun _ => noon |}.

(** A world in which the key is set to the empty string. *)
Definition world_with_empty_key : World :=
  {| OPENWEATHER_API_KEY := Some "";
     fetch := fun _ => Return {| ok := true; status := 200;
                                 statusText := "OK";
                                 json := Return fair_day |};
     clock := fun _ => noon |}.

(** The temperature lines and the feels-like lines of the list. *)
Definition is_temperature_advisory (s : string) : bool :=
  String.eqb s HYPOTHERMIA_WARNING || String.eqb s COOL_SUGGESTION.

Definition is_heat_advisory (s : string) : bool :=
  String.eqb s HEAT_WARNING || String.eqb s SUNSCREEN_REMINDER.

(** A payload with another wind speed, and with another temperature. *)
Definition with_speed (w : OpenWeatherResponse) (speed : JS.number)
  : OpenWeatherResponse :=
  {| weather := weather w;
     main := main w;
     visibility := visibility w;
     wind := option_map
               (fun x => {| wind_speed := Some speed;
                            wind_deg := wind_deg x;
                            wind_gust := wind_gust x |}) (wind w);
     clouds := clouds w;
     dt := dt w;
     sys := sys w;
     response_name := response_name w |}.

Definition with_temp (w : OpenWeatherResponse) (temp : JS.number)
  : OpenWeatherResponse :=
  {| weather := weather w;
     main := option_map
               (fun m => {| main_temp := Some temp;
                            main_feels_like := main_feels_like m;
                            main_temp_min := main_temp_min m;
                            main_temp_max := main_temp_max m;
                            main_pressure := main_pressure m;
                            main_humidity := main_humidity m |}) (main w);
     visibility := visibility w;
     wind := wind w;
     clouds := clouds w;
     dt := dt w;
     sys := sys w;
     response_name := response_name w |}.

(** A payload that has its objects and the condition keyword, and none of
    the readings. *)
Definition no_readings (conditions : string) : OpenWeatherResponse :=
  {| weather := Some [ {| weather_main := Some conditions;
                          weather_description := None;
                          weather_id := None |} ];
     main := Some {| main_temp := None; main_feels_like := None;
                     main_temp_min := None; main_temp_max := None;
                     main_pressure := None; main_humidity := None |};
     visibility := None;
     wind := Some {| wind_speed := None; wind_deg := None;
                     wind_gust := None |};
     clouds := Some {| clouds_all := None |};
     dt := None;
     sys := None;
     response_name := None |}.

(** A foggy, windy, cold day: every POOR rule but rain matches. *)
Definition foggy_day : OpenWeatherResponse :=
  sample_payload "Mist" 55 50 18 None 90 400 100.

(** * Checks

    The primitives on sample values, and the worked examples of the
    specification's section 8. *)

Example round_half_up : JS.Math_round 2.5%float = 3%float.
Proof. reflexivity. Qed.

Example round_negative_half : JS.Math_round (-2.5)%float = (-2)%float.
Proof. reflexivity. Qed.

Example round_below_half : JS.Math_round 0.49999999999999994%float = 0%float.
Proof. reflexivity. Qed.

Example round_small_negative : JS.Math_round (-0.3)%float = (-0)%float.
Proof. reflexivity. Qed.

Example round_large_half :
  JS.Math_round 2251799813685248.5%float = 2251799813685249%float.
Proof. reflexivity. Qed.

Example round_beyond_two52 :
  JS.Math_round 9007199254740993%float = 9007199254740992%float.
Proof. reflexivity. Qed.

Example floor_negative : JS.Math_floor (-0.3)%float = (-1)%float.
Proof. reflexivity. Qed.

Example round_of_undefined : JS.isNaN (JS.Math_round (JS.ToNumber None)) = true.
Proof. reflexivity. Qed.

Example round_boundary : JS.Math_round 59.6%float = 60%float.
Proof. reflexivity. Qed.

Example ten_kilometres_in_miles :
  (JS.Math_round (10000 / 1609.34 * 10) / 10)%float = 6.2%float.
Proof. reflexivity. Qed.

Example zero_is_falsy :
  JS.ToBoolean (Some 0%float) = false /\ JS.ToBoolean (Some (-0)%float) = false
  /\ JS.ToBoolean (Some nan) = false /\ JS.ToBoolean None = false
  /\ JS.ToBoolean (Some 25%float) = true.
Proof. repeat split. Qed.

Example includes_storm : JS.includes "thunderstorm" "storm" = true.
Proof. reflexivity. Qed.

Example includes_nothing : JS.includes "clear" "rain" = false.
Proof. reflexivity. Qed.

Example join_keys : JS.join ", " ["a"; "b"; "c"] = "a, b, c".
Proof. reflexivity. Qed.

Example noon_hour : getHours noon = 12%Z /\ getHours half_past_noon = 12%Z
                    /\ getHours evening = 20%Z.
Proof. repeat split. Qed.

(** [resolve] is case- and whitespace-insensitive. *)
Example resolve_coney_island :
  get_beach (JS.trim (JS.toLowerCase "  Coney Island  "))
  = get_beach "coney island" /\
  get_beach (JS.trim (JS.toLowerCase "CONEY ISLAND"))
  = get_beach "coney island" /\
  option_map beach_name (get_beach "coney island")
  = Some (Some "Coney Island Beach").
Proof. repeat split. Qed.

(** [Atlantis] is refused with the nine keys. *)
Example resolve_atlantis :
  getBeachWeather (world_serving fair_day) "Atlantis" =
    Throw (Error ("Failed to fetch beach weather data: Beach " ++ dq
                  ++ "Atlantis" ++ dq ++ " not found. Available beaches: "
                  ++ "coney island, brighton beach, manhattan beach, "
                  ++ "rockaway beach, orchard beach, south beach, "
                  ++ "midland beach, cedar grove beach, wolfes pond beach")).
Proof. vm_compute. reflexivity. Qed.

(** A thunderstorm is DANGEROUS and the second entry is the exit warning. *)
Example thunderstorm_day :
  let w := sample_payload "Thunderstorm" 80 82 5 None 50 10000 10 in
  getSafetyAssessment w = Return DANGEROUS /\
  option_map (fun l => nth_error l 1)
    (match getRecommendations w with Return l => Some l | Throw _ => None end)
  = Some (Some THUNDERSTORM_WARNING).
Proof. split; vm_compute; reflexivity. Qed.

(** Wind 5 mph, 80 degrees, clear, cloud cover 10%, visibility 10 miles. *)
Example fair_day_is_good :
  getSafetyAssessment fair_day = Return GOOD /\
  getRecommendations fair_day = Return [LIFEGUARD_REMINDER; EXCELLENT_NOTE].
Proof. split; vm_compute; reflexivity. Qed.

(** Wind 12 mph, 72 degrees, clouds, cloud cover 50%. *)
Example breezy_day_is_caution :
  getSafetyAssessment (sample_payload "Clouds" 72 72 12 None 50 10000 50)
  = Return CAUTION.
Proof. vm_compute. reflexivity. Qed.

(** 58 degrees and otherwise benign. *)
Example cold_day_is_poor :
  getSafetyAssessment (sample_payload "Clear" 58 58 5 None 50 10000 10)
  = Return POOR.
Proof. vm_compute. reflexivity. Qed.

(** UV boundary: hour 10, cloud cover 29%, 71 degrees; and hour 8. *)
Example uv_boundary :
  let w := sample_payload "Clear" 71 71 5 None 50 10000 29 in
  let ten := {| epochMs := 1717250400000; timezoneOffset := 240 |} in
  let eight := {| epochMs := 1717243200000; timezoneOffset := 240 |} in
  getHours ten = 10%Z /\ getHours eight = 8%Z /\
  getUVWarning ten w = Return (Some UV_HIGH) /\
  getUVWarning eight w = Return None.
Proof. repeat split. Qed.

(** Gust 25 mph over a sustained wind of 8 mph. *)
Example gusty_day_recommendations :
  getRecommendations gusty_day
  = Return [LIFEGUARD_REMINDER; GUST_WARNING; COOL_SUGGESTION].
Proof. vm_compute. reflexivity. Qed.

(** The payload of an error response has nothing to read. *)
Example empty_payload_throws :
  display empty_payload = Throw (cannot_read "temp") /\
  getSafetyAssessment empty_payload = Throw (cannot_read "temp").
Proof. split; reflexivity. Qed.

(** * Properties *)

(** ** Payloads that have their objects *)

Lemma has_advice_blocks_inv (w : OpenWeatherResponse) :
  has_advice_blocks w = true ->
  exists m x e rest text,
    main w = Some m /\ wind w = Some x /\
    weather w = Some (e :: rest) /\ weather_main e = Some text.
Proof.
  unfold has_advice_blocks, raw_text.
  destruct (main w) as [m|]; [|discriminate].
  destruct (wind w) as [x|]; [|discriminate].
  destruct (weather w) as [[|e rest]|]; try discriminate.
  destruct (weather_main e) as [text|] eqn:E; [|discriminate].
  intros _. exists m, x, e, rest, text. auto.
Qed.

Lemma has_blocks_advice (w : OpenWeatherResponse) :
  has_blocks w = true -> has_advice_blocks w = true.
Proof.
  unfold has_blocks, has_advice_blocks.
  destruct (present (main w)), (present (wind w)), (present (clouds w));
    simpl; auto; discriminate.
Qed.

Ltac open_payload w H :=
  let m := fresh "m" in
  let x := fresh "x" in
  let e := fresh "e" in
  let rest := fresh "rest" in
  let text := fresh "text" in
  let Hm := fresh "Hmain" in
  let Hx := fresh "Hwind" in
  let He := fresh "Hweather" in
  let Ht := fresh "Htext" in
  destruct (has_advice_blocks_inv w H)
    as (m & x & e & rest & text & Hm & Hx & He & Ht).

(** [getRecommendations] written as a table: the lines of [ADVISORIES]
    whose trigger fires. *)
Lemma getRecommendations_table (w : OpenWeatherResponse) :
  has_advice_blocks w = true ->
  getRecommendations w = Return (select (triggers w) ADVISORIES).
Proof.
  intros H. open_payload w H.
  unfold getRecommendations, lower_conditions, weather0_main, weather0,
    triggers, raw_text, raw_temp, raw_feels_like, raw_humidity, raw_speed,
    raw_gust.
  rewrite Hmain, Hwind, Hweather.
  cbn [member bind nth_error]. rewrite Htext. cbn [member bind].
  f_equal.
  unfold ADVISORIES, push_if, push.
  repeat match goal with
         | |- context [if ?c then _ else _] =>
             destruct c; cbn [negb andb select app]
         end;
    reflexivity.
Qed.

(** ** The order of binary64 values *)

Lemma SFltb_trans (a x b : spec_float) :
  SFltb a x = true -> SFltb x b = true -> SFltb a b = true.
Proof.
  unfold SFltb, SFcompare.
  destruct a as [sa|sa| |sa ma ea], x as [sx|sx| |sx mx ex],
    b as [sb|sb| |sb mb eb];
    repeat match goal with s : bool |- _ => destruct s end;
    try discriminate; try reflexivity;
    change (Pos.compare_cont Eq) with Pos.compare;
    destruct (Z.compare_spec ea ex), (Z.compare_spec ex eb),
      (Z.compare_spec ea eb); try discriminate; try reflexivity; try lia;
    destruct (Pos.compare_spec ma mx), (Pos.compare_spec mx mb),
      (Pos.compare_spec ma mb); simpl; try discriminate; try reflexivity;
    try lia.
Qed.

Lemma SFltb_not_eqb (a b : spec_float) :
  SFltb a b = true -> SFeqb b a = false.
Proof.
  unfold SFltb, SFeqb, SFcompare.
  destruct a as [sa|sa| |sa ma ea], b as [sb|sb| |sb mb eb];
    repeat match goal with s : bool |- _ => destruct s end;
    try discriminate; try reflexivity;
    change (Pos.compare_cont Eq) with Pos.compare;
    rewrite (Z.compare_antisym ea eb), (Pos.compare_antisym ma mb);
    destruct (ea ?= eb)%Z, (ma ?= mb)%positive; simpl;
    try discriminate; reflexivity.
Qed.

Lemma SFltb_eqb_refl (a b : spec_float) :
  SFltb a b = true -> SFeqb b b = true.
Proof.
  unfold SFltb, SFeqb, SFcompare.
  destruct a as [sa|sa| |sa ma ea], b as [sb|sb| |sb mb eb];
    repeat match goal with s : bool |- _ => destruct s end;
    try discriminate; try reflexivity;
    intros _; change (Pos.compare_cont Eq) with Pos.compare;
    rewrite Z.compare_refl, Pos.compare_refl; reflexivity.
Qed.

Lemma ltb_trans (a x b : float) :
  (a <? x)%float = true -> (x <? b)%float = true -> (a <? b)%float = true.
Proof. rewrite !ltb_spec. apply SFltb_trans. Qed.

Lemma ltb_not_eqb (a b : float) :
  (a <? b)%float = true -> (b =? a)%float = false.
Proof. rewrite ltb_spec, eqb_spec. apply SFltb_not_eqb. Qed.

Lemma ltb_not_nan (a b : float) :
  (a <? b)%float = true -> JS.isNaN b = false.
Proof.
  unfold JS.isNaN. rewrite ltb_spec, eqb_spec. intros H.
  rewrite (SFltb_eqb_refl _ _ H). reflexivity.
Qed.

(** A value below [a] is not above [b] when [b] is not below [a]. *)
Lemma lt_excludes_gt (v : option JS.number) (a b : JS.number) :
  (b <? a)%float = false -> JS.lt v a = true -> JS.gt v b = false.
Proof.
  unfold JS.lt, JS.gt. intros Hba Hlt.
  destruct (b <? JS.ToNumber v)%float eqn:Hgt; [|reflexivity].
  rewrite (ltb_trans _ _ _ Hgt Hlt) in Hba. discriminate.
Qed.

(** A value below [a] is below any [b] above [a]. *)
Lemma lt_weaken (v : option JS.number) (a b : JS.number) :
  (a <? b)%float = true -> JS.lt v a = true -> JS.lt v b = true.
Proof. unfold JS.lt. intros Hab Hlt. exact (ltb_trans _ _ _ Hlt Hab). Qed.

(** Comparing [undefined] with a number is false either way. *)
Lemma undefined_compares_false (c : JS.number) :
  JS.lt None c = false /\ JS.gt None c = false.
Proof.
  unfold JS.lt, JS.gt, JS.ToNumber, JS.NaN. rewrite !ltb_spec.
  change (Prim2SF nan) with S754_nan. split.
  - reflexivity.
  - unfold SFltb, SFcompare. destruct (Prim2SF c); reflexivity.
Qed.

(** A value above a positive number is truthy. *)
Lemma gt_truthy (v : option JS.number) (c : JS.number) :
  (0 <? c)%float = true -> JS.gt v c = true -> JS.ToBoolean v = true.
Proof.
  unfold JS.gt, JS.ToBoolean. intros Hc Hgt.
  destruct v as [x|]; simpl in Hgt.
  - rewrite (ltb_not_eqb _ _ (ltb_trans _ _ _ Hc Hgt)).
    rewrite (ltb_not_nan _ _ Hgt). reflexivity.
  - destruct (undefined_compares_false c) as [_ H].
    unfold JS.gt in H. simpl in H. congruence.
Qed.

Arguments lt_excludes_gt v (a b)%_float.
Arguments lt_weaken v (a b)%_float.
Arguments gt_truthy v c%_float.

(** ** Selections from a list *)

Lemma subsequence_empty {A : Type} (xs : list A) : subsequence [] xs.
Proof. induction xs; constructor; auto. Qed.

Lemma select_subsequence {A : Type} (bs : list bool) (xs : list A) :
  subsequence (select bs xs) xs.
Proof.
  revert bs. induction xs as [|x xs IH]; intros bs.
  - destruct bs; simpl; constructor.
  - destruct bs as [|b bs]; simpl.
    + apply subsequence_empty.
    + destruct b; constructor; apply IH.
Qed.

Lemma select_length {A : Type} (bs : list bool) (xs : list A) :
  List.length bs = List.length xs ->
  List.length (select bs xs) = count_true bs.
Proof.
  revert xs. induction bs as [|b bs IH]; intros [|x xs] H; try discriminate.
  - reflexivity.
  - injection H as H. destruct b; simpl; rewrite (IH xs H); reflexivity.
Qed.

Lemma filter_select {A : Type} (p : A -> bool) (bs : list bool) (xs : list A) :
  filter p (select bs xs) = select (both bs (map p xs)) xs.
Proof.
  revert xs. induction bs as [|b bs IH]; intros [|x xs]; try reflexivity.
  unfold both in *. destruct b; simpl.
  - rewrite IH. reflexivity.
  - apply IH.
Qed.

Lemma In_select {A : Type} (x : A) (bs : list bool) (xs : list A) :
  In x (select bs xs) <-> In (true, x) (combine bs xs).
Proof.
  revert xs. induction bs as [|b bs IH]; intros [|y xs]; simpl;
    try tauto.
  destruct b; simpl; rewrite IH.
  - split; intros [H|H]; auto; left; congruence.
  - split; [auto|]. intros [H|H]; [discriminate|assumption].
Qed.

(** ** The recommendation list *)

Lemma ADVISORIES_NoDup : NoDup ADVISORIES.
Proof.
  assert (H : forall l : list string,
             (fix nodup (l : list string) : bool :=
                match l with
                | [] => true
                | x :: r => negb (existsb (String.eqb x) r) && nodup r
                end) l = true -> NoDup l).
  { induction l as [|x r IH]; intros E; constructor.
    - apply andb_prop in E as [E _]. intros Hin.
      assert (existsb (String.eqb x) r = true) as E'.
      { apply existsb_exists. exists x. split; [assumption|apply String.eqb_refl]. }
      rewrite E' in E. discriminate.
    - apply IH. apply andb_prop in E as [_ E]. exact E. }
  apply H. vm_compute. reflexivity.
Qed.

Lemma wind_flags :
  map is_wind_advisory ADVISORIES
  = [ false; false; false; true; true; true; false; false; false; false;
      false; false; false ].
Proof. vm_compute. reflexivity. Qed.

Lemma triggers_length (w : OpenWeatherResponse) :
  List.length (triggers w) = List.length ADVISORIES.
Proof. reflexivity. Qed.

(** At most eight triggers fire: the three wind lines exclude each other,
    as do the two temperature lines and the two feels-like lines, and a
    temperature below 75 rules out both the heat-exhaustion line (above 80)
    and the excellent-conditions note (above 75). *)
Lemma triggers_at_most_8 (w : OpenWeatherResponse) :
  count_true (triggers w) <= 8.
Proof.
  unfold triggers.
  set (conditions := match raw_text w with
                     | Some t => JS.toLowerCase t
                     | None => ""
                     end).
  assert (H65 : JS.lt (raw_temp w) 65 = true ->
                JS.gt (raw_temp w) 80 = false /\ JS.gt (raw_temp w) 75 = false).
  { intros H. split; apply (lt_excludes_gt _ 65); auto. }
  assert (H75 : JS.lt (raw_temp w) 75 = true ->
                JS.gt (raw_temp w) 80 = false /\ JS.gt (raw_temp w) 75 = false).
  { intros H. split; apply (lt_excludes_gt _ 75); auto. }
  set (t65 := JS.lt (raw_temp w) 65) in *.
  set (t75 := JS.lt (raw_temp w) 75) in *.
  set (t80 := JS.gt (raw_temp w) 80) in *.
  set (t75' := JS.gt (raw_temp w) 75) in *.
  set (gusty := JS.ToBoolean (raw_gust w) && JS.gt (raw_gust w) 20).
  set (s15 := JS.gt (raw_speed w) 15).
  set (s10 := JS.gt (raw_speed w) 10).
  set (f90 := JS.gt (raw_feels_like w) 90).
  set (f85 := JS.gt (raw_feels_like w) 85).
  clearbody t65 t75 t80 t75' gusty s15 s10 f90 f85.
  generalize (JS.includes conditions "thunderstorm")
    (JS.includes conditions "rain") (JS.includes conditions "clear")
    (JS.lt (raw_speed w) 10) (JS.lt (visibility w) 1000)
    (JS.gt (raw_humidity w) 80).
  intros thunder rainy clear_sky calm murky humid.
  assert (Hb : forall b : bool, Nat.b2n b <= 1) by (intros []; simpl; lia).
  destruct t65; [destruct (H65 eq_refl); subst|];
    (destruct t75; [destruct (H75 eq_refl); subst|]);
    clear H65 H75; unfold count_true;
    destruct gusty, s15, s10, f90, f85;
    cbn [fold_right negb andb]; rewrite ?andb_false_r; cbn [Nat.b2n];
    repeat match goal with
           | |- context [Nat.b2n ?b] =>
               generalize (Hb b); generalize (Nat.b2n b); intros ? ?
           end;
    lia.
Qed.

(** C8. For every payload that has the objects [getRecommendations] reads,
    the function returns a list that starts with the lifeguard-hours
    reminder, keeps the order of the fixed trigger sequence whichever
    triggers fired, and has between one and eight entries. *)
Theorem recommendations_shape (w : OpenWeatherResponse) :
  has_advice_blocks w = true ->
  exists recommendations,
    getRecommendations w = Return recommendations /\
    hd_error recommendations = Some LIFEGUARD_REMINDER /\
    subsequence recommendations ADVISORIES /\
    1 <= List.length recommendations <= 8.
Proof.
  intros H. exists (select (triggers w) ADVISORIES).
  split; [apply getRecommendations_table, H|].
  split; [reflexivity|].
  split; [apply select_subsequence|].
  rewrite (select_length _ _ (triggers_length w)).
  split; [|apply triggers_at_most_8].
  unfold triggers, count_true. cbn [fold_right Nat.b2n]. lia.
Qed.

Lemma recommendations_shape_witness :
  exists recommendations,
    getRecommendations fair_day = Return recommendations /\
    hd_error recommendations = Some LIFEGUARD_REMINDER /\
    subsequence recommendations ADVISORIES /\
    1 <= List.length recommendations <= 8.
Proof. apply (recommendations_shape fair_day). reflexivity. Defined.

(** C6. Among the wind-related entries of the list there is at most one:
    the severe-gust warning when a gust above 20 mph is reported; otherwise
    the rip-current warning when the sustained wind is above 15 mph;
    otherwise the moderate-wind caution when it is above 10 mph. *)
Theorem wind_advisories_exclusive (w : OpenWeatherResponse) :
  has_advice_blocks w = true ->
  exists recommendations,
    getRecommendations w = Return recommendations /\
    wind_entries recommendations =
      if JS.gt (raw_gust w) 20 then [GUST_WARNING]
      else if JS.gt (raw_speed w) 15 then [RIP_CURRENT_WARNING]
      else if JS.gt (raw_speed w) 10 then [MODERATE_WIND_CAUTION]
      else [].
Proof.
  intros H. exists (select (triggers w) ADVISORIES).
  split; [apply getRecommendations_table, H|].
  unfold wind_entries. rewrite filter_select, wind_flags.
  unfold triggers, both, ADVISORIES.
  cbn [combine map fst snd]. rewrite !andb_false_r, !andb_true_r.
  cbn [select].
  destruct (JS.gt (raw_gust w) 20) eqn:Hgust.
  - rewrite (gt_truthy _ 20 eq_refl Hgust). reflexivity.
  - rewrite andb_false_r.
    destruct (JS.gt (raw_speed w) 15), (JS.gt (raw_speed w) 10); reflexivity.
Qed.

Lemma wind_advisories_exclusive_witness :
  JS.gt (raw_gust gusty_day) 20 = true /\
  exists recommendations,
    getRecommendations gusty_day = Return recommendations /\
    wind_entries recommendations =
      if JS.gt (raw_gust gusty_day) 20 then [GUST_WARNING]
      else if JS.gt (raw_speed gusty_day) 15 then [RIP_CURRENT_WARNING]
      else if JS.gt (raw_speed gusty_day) 10 then [MODERATE_WIND_CAUTION]
      else [].
Proof.
  split; [reflexivity|].
  apply (wind_advisories_exclusive gusty_day). reflexivity.
Defined.

(** ** The severity verdict *)

(** A text that contains [thunderstorm] contains [storm]. *)
Lemma includes_thunderstorm_storm (s : string) :
  JS.includes s "thunderstorm" = true -> JS.includes s "storm" = true.
Proof.
  induction s as [|c s IH]; [discriminate|].
  cbn [JS.includes]. intros H. apply orb_prop in H as [H|H].
  - apply orb_true_iff. right. clear IH.
    apply prefix_correct in H. cbn [String.length] in H.
    destruct s as [|c1 [|c2 [|c3 [|c4 [|c5 [|c6 [|c7 [|c8 [|c9 [|c10 [|c11 s]]]]]]]]]]];
      try discriminate.
    cbn in H. injection H as -> -> -> -> -> -> -> -> -> -> -> ->.
    cbn [JS.includes]. rewrite !orb_true_iff.
    do 6 right. left. apply prefix_correct. cbn. f_equal.
    repeat f_equal. destruct s; reflexivity.
  - apply orb_true_iff. right. apply IH, H.
Qed.

(** [getSafetyAssessment] reports the most severe tier among the rules of
    [code_verdict] that match. *)
Lemma getSafetyAssessment_table (w : OpenWeatherResponse) :
  has_blocks w = true ->
  getSafetyAssessment w = Return (verdict_text (code_verdict w)).
Proof.
  intros H. pose proof (has_blocks_advice w H) as H'. open_payload w H'.
  assert (exists c, clouds w = Some c) as [c Hc].
  { unfold has_blocks in H. destruct (clouds w) as [c|]; [eauto|].
    rewrite !andb_false_r in H. discriminate. }
  unfold getSafetyAssessment, lower_conditions, weather0_main, weather0,
    code_verdict, severity_rules, spec_category, raw_text, raw_temp,
    raw_speed, raw_cloud.
  rewrite Hmain, Hwind, Hweather, Hc.
  cbn [member bind nth_error]. rewrite Htext. cbn [member bind].
  pose proof (includes_thunderstorm_storm (JS.toLowerCase text)) as Hts.
  destruct (JS.includes (JS.toLowerCase text) "storm");
    destruct (JS.includes (JS.toLowerCase text) "thunderstorm");
    try (specialize (Hts eq_refl); discriminate); clear Hts;
    cbn [orb];
    destruct (JS.includes (JS.toLowerCase text) "rain");
    destruct (JS.includes (JS.toLowerCase text) "drizzle");
    destruct (JS.includes (JS.toLowerCase text) "clouds");
    destruct (JS.includes (JS.toLowerCase text) "clear");
    destruct (JS.gt (wind_speed x) 15), (JS.lt (main_temp m) 60),
      (JS.lt (visibility w) 1000), (JS.gt (wind_speed x) 10),
      (JS.lt (main_temp m) 70), (JS.gt (clouds_all c) 80);
    reflexivity.
Qed.

Lemma In_select_In {A : Type} (x : A) (bs : list bool) (xs : list A) :
  In x (select bs xs) -> In x xs.
Proof.
  revert xs. induction bs as [|b bs IH]; intros [|y xs]; simpl; try tauto.
  destruct b; simpl; intuition auto.
Qed.

(** In a list without repetition, the entry at position [i] is selected
    exactly when flag [i] is set. *)
Lemma In_select_nth {A : Type} (x : A) (b : bool) (i : nat)
  (bs : list bool) (xs : list A) :
  NoDup xs -> nth_error xs i = Some x -> nth_error bs i = Some b ->
  (In x (select bs xs) <-> b = true).
Proof.
  revert i bs. induction xs as [|y xs IH]; intros i bs Hnd Hx Hb.
  - destruct i; discriminate.
  - inversion Hnd as [|? ? Hy Hnd']; subst.
    destruct bs as [|b0 bs]; [destruct i; discriminate|].
    destruct i as [|i]; simpl in Hx, Hb.
    + injection Hx as Hx. injection Hb as Hb. subst y b0. simpl.
      destruct b; simpl; split; auto; try discriminate.
      intros Hin. elim Hy. apply (In_select_In _ _ _ Hin).
    + specialize (IH i bs Hnd' Hx Hb). simpl.
      assert (y <> x) by (intros ->; apply Hy; eapply nth_error_In; eauto).
      destruct b0; simpl; rewrite <- IH; intuition auto.
Qed.

(** C1, as the code has it. For every payload that has its objects, the
    verdict is the most severe tier among the severity rules that match,
    where the DANGEROUS rule is that the lowercased condition text contains
    [storm] (which every text containing [thunderstorm] does); the POOR and
    CAUTION rules are those of the specification. Equivalently: DANGEROUS
    on [storm]; otherwise POOR on wind above 15, temperature below 60,
    [rain] in the text or visibility below 1000 m; otherwise CAUTION on
    wind above 10, temperature below 70, [drizzle] in the text or cloud
    cover above 80; otherwise GOOD. *)
Theorem verdict_is_most_severe_match (w : OpenWeatherResponse) :
  has_blocks w = true ->
  exists text,
    raw_text w = Some text /\
    getSafetyAssessment w = Return (verdict_text (code_verdict w)) /\
    code_verdict w =
      let conditions := JS.toLowerCase text in
      if JS.includes conditions "storm" then V_DANGEROUS
      else if JS.gt (raw_speed w) 15 || JS.lt (raw_temp w) 60
              || JS.includes conditions "rain" || JS.lt (visibility w) 1000
      then V_POOR
      else if JS.gt (raw_speed w) 10 || JS.lt (raw_temp w) 70
              || JS.includes conditions "drizzle" || JS.gt (raw_cloud w) 80
      then V_CAUTION
      else V_GOOD.
Proof.
  intros H. pose proof (has_blocks_advice w H) as H'.
  assert (exists text, raw_text w = Some text) as [text Ht].
  { unfold has_advice_blocks in H'.
    destruct (raw_text w) as [t|]; [eauto|].
    rewrite andb_false_r in H'. discriminate. }
  exists text. split; [exact Ht|].
  split; [apply getSafetyAssessment_table, H|].
  unfold code_verdict, severity_rules, spec_category. rewrite Ht.
  cbv zeta.
  pose proof (includes_thunderstorm_storm (JS.toLowerCase text)) as Hts.
  destruct (JS.includes (JS.toLowerCase text) "storm");
    destruct (JS.includes (JS.toLowerCase text) "thunderstorm");
    try (specialize (Hts eq_refl); discriminate); clear Hts;
    destruct (JS.includes (JS.toLowerCase text) "rain");
    destruct (JS.includes (JS.toLowerCase text) "drizzle");
    destruct (JS.includes (JS.toLowerCase text) "clouds");
    destruct (JS.includes (JS.toLowerCase text) "clear");
    destruct (JS.gt (raw_speed w) 15), (JS.lt (raw_temp w) 60),
      (JS.lt (visibility w) 1000), (JS.gt (raw_speed w) 10),
      (JS.lt (raw_temp w) 70), (JS.gt (raw_cloud w) 80);
    reflexivity.
Qed.

Lemma verdict_is_most_severe_match_witness :
  has_blocks fair_day = true /\
  exists text,
    raw_text fair_day = Some text /\
    getSafetyAssessment fair_day = Return (verdict_text (code_verdict fair_day)) /\
    code_verdict fair_day =
      let conditions := JS.toLowerCase text in
      if JS.includes conditions "storm" then V_DANGEROUS
      else if JS.gt (raw_speed fair_day) 15 || JS.lt (raw_temp fair_day) 60
              || JS.includes conditions "rain"
              || JS.lt (visibility fair_day) 1000
      then V_POOR
      else if JS.gt (raw_speed fair_day) 10 || JS.lt (raw_temp fair_day) 70
              || JS.includes conditions "drizzle"
              || JS.gt (raw_cloud fair_day) 80
      then V_CAUTION
      else V_GOOD.
Proof.
  split; [reflexivity|].
  apply (verdict_is_most_severe_match fair_day). reflexivity.
Defined.

(** C1 as the specification states it fails: [Tropical Storm] is not in the
    thunderstorm category and no other rule matches, so the stated
    classifier reports GOOD, while the code reports DANGEROUS. *)
Lemma tropical_storm_refutes_category_rule :
  has_blocks tropical_storm = true /\
  spec_verdict tropical_storm = V_GOOD /\
  getSafetyAssessment tropical_storm = Return DANGEROUS /\
  getSafetyAssessment tropical_storm
    <> Return (verdict_text (spec_verdict tropical_storm)).
Proof.
  repeat split; try (vm_compute; reflexivity).
  vm_compute. discriminate.
Qed.

(** C10. Whenever the lowercased condition text contains [storm], the
    verdict is DANGEROUS, whether or not it contains [thunderstorm]. *)
Theorem storm_is_dangerous (w : OpenWeatherResponse) (text : string) :
  has_advice_blocks w = true ->
  raw_text w = Some text ->
  JS.includes (JS.toLowerCase text) "storm" = true ->
  getSafetyAssessment w = Return DANGEROUS.
Proof.
  intros H Ht Hstorm. open_payload w H.
  unfold raw_text in Ht. rewrite Hweather, Htext in Ht. injection Ht as ->.
  unfold getSafetyAssessment, lower_conditions, weather0_main, weather0.
  rewrite Hmain, Hwind, Hweather.
  cbn [member bind nth_error]. rewrite Htext. cbn [member bind].
  rewrite Hstorm, orb_true_r. reflexivity.
Qed.

Lemma storm_is_dangerous_witness :
  spec_category "Tropical Storm" = other_or_unmapped /\
  JS.includes (JS.toLowerCase "Tropical Storm") "thunderstorm" = false /\
  getSafetyAssessment tropical_storm = Return DANGEROUS.
Proof.
  split; [reflexivity|]. split; [reflexivity|].
  apply (storm_is_dangerous tropical_storm "Tropical Storm"); reflexivity.
Defined.

(** ** Condition cues *)

(** C4, as the code has it. The code derives no category: each rule tests
    its own cue on the lowercased condition text. The thunderstorm warning
    is in the list exactly when the text contains [thunderstorm], the rain
    caution exactly when it contains [rain], whatever else the text
    contains; and the verdict of a text containing [thunderstorm] is
    DANGEROUS whatever other cues it has. *)
Theorem cues_fire_independently (w : OpenWeatherResponse) (text : string) :
  has_advice_blocks w = true ->
  raw_text w = Some text ->
  exists recommendations,
    getRecommendations w = Return recommendations /\
    (In THUNDERSTORM_WARNING recommendations
     <-> JS.includes (JS.toLowerCase text) "thunderstorm" = true) /\
    (In RAIN_CAUTION recommendations
     <-> JS.includes (JS.toLowerCase text) "rain" = true) /\
    (JS.includes (JS.toLowerCase text) "thunderstorm" = true ->
     getSafetyAssessment w = Return DANGEROUS).
Proof.
  intros H Ht. exists (select (triggers w) ADVISORIES).
  split; [apply getRecommendations_table, H|].
  split; [|split].
  - apply (In_select_nth _ _ 1 _ _ ADVISORIES_NoDup); [reflexivity|].
    unfold triggers. rewrite Ht. reflexivity.
  - apply (In_select_nth _ _ 2 _ _ ADVISORIES_NoDup); [reflexivity|].
    unfold triggers. rewrite Ht. reflexivity.
  - intros Hth. open_payload w H.
    unfold raw_text in Ht. rewrite Hweather, Htext in Ht. injection Ht as ->.
    unfold getSafetyAssessment, lower_conditions, weather0_main, weather0.
    rewrite Hmain, Hwind, Hweather.
    cbn [member bind nth_error]. rewrite Htext. cbn [member bind].
    rewrite Hth. reflexivity.
Qed.

Lemma cues_fire_independently_witness :
  exists recommendations,
    getRecommendations thunderstorm_with_rain = Return recommendations /\
    (In THUNDERSTORM_WARNING recommendations
     <-> JS.includes (JS.toLowerCase "Thunderstorm with rain") "thunderstorm"
         = true) /\
    (In RAIN_CAUTION recommendations
     <-> JS.includes (JS.toLowerCase "Thunderstorm with rain") "rain" = true) /\
    (JS.includes (JS.toLowerCase "Thunderstorm with rain") "thunderstorm" = true ->
     getSafetyAssessment thunderstorm_with_rain = Return DANGEROUS).
Proof.
  apply (cues_fire_independently thunderstorm_with_rain
           "Thunderstorm with rain"); reflexivity.
Defined.

(** C4 as the specification states it fails: [Thunderstorm with rain] is in
    the thunderstorm category alone, yet the advisory keyed to rain is in
    the list next to the one keyed to thunderstorm. *)
Lemma thunderstorm_with_rain_fires_rain_rule :
  spec_category "Thunderstorm with rain" = thunderstorm /\
  getRecommendations thunderstorm_with_rain
  = Return [ LIFEGUARD_REMINDER; THUNDERSTORM_WARNING; RAIN_CAUTION ] /\
  In RAIN_CAUTION
    [ LIFEGUARD_REMINDER; THUNDERSTORM_WARNING; RAIN_CAUTION ].
Proof.
  split; [reflexivity|]. split; [vm_compute; reflexivity|].
  simpl. auto.
Qed.

(** ** What the engine depends on *)

(** The engine reads nothing of the payload outside its [observation]. *)
Lemma assess_observation (now : Date) (w : OpenWeatherResponse) :
  assess now (observation w) = assess now w.
Proof.
  destruct w as [entries m v x c d s n].
  destruct entries as [[|e rest]|], m as [m|], x as [x|], c as [c|];
    reflexivity.
Qed.

(** Of the clock, the engine reads the local hour and nothing else. *)
Lemma assess_hour (now1 now2 : Date) (w : OpenWeatherResponse) :
  getHours now1 = getHours now2 -> assess now1 w = assess now2 w.
Proof.
  intros H. unfold assess, getUVWarning. cbv zeta. rewrite H. reflexivity.
Qed.

(** C3. The verdict, the recommendation list and the UV advisory are a
    function of the observation and the evaluation hour: two calls whose
    payloads agree on the observation, at instants with the same local
    hour, produce the same safety record (or throw the same exception),
    whatever else differs in the payloads or in the clock. *)
Theorem classifier_deterministic (w1 w2 : OpenWeatherResponse)
  (now1 now2 : Date) :
  observation w1 = observation w2 ->
  getHours now1 = getHours now2 ->
  assess now1 w1 = assess now2 w2.
Proof.
  intros Hobs Hhour.
  rewrite <- (assess_observation now1 w1), Hobs, assess_observation.
  apply assess_hour, Hhour.
Qed.

Lemma classifier_deterministic_witness :
  fair_day <> fair_day_elsewhere /\ noon <> half_past_noon /\
  assess noon fair_day = assess half_past_noon fair_day_elsewhere.
Proof.
  split; [discriminate|]. split; [discriminate|].
  apply (classifier_deterministic fair_day fair_day_elsewhere noon
           half_past_noon); reflexivity.
Defined.

(** ** The tool as a whole *)

(** Once the beach is resolved, the key is set and the provider has
    answered with a payload, what remains is the display record and the
    safety record. *)
Lemma getBeachWeather_try_fetched (world : World) (beachName : string)
  (beach : looked_up) (apiKey : string) (response : Response)
  (weatherData : OpenWeatherResponse) :
  get_beach (JS.trim (JS.toLowerCase beachName)) = Some beach ->
  configured (OPENWEATHER_API_KEY world) = Some apiKey ->
  fetch world {| query_lat := beach_lat beach;
                 query_lon := beach_lon beach;
                 query_appid := apiKey |} = Return response ->
  ok response = true ->
  json response = Return weatherData ->
  getBeachWeather_try world beachName =
    (weather <- display weatherData ;;
     safety <- assess (clock world 0) weatherData ;;
     Return {| Result.beach := beach_name beach;
               Result.coordinates :=
                 {| Result.latitude := beach_lat beach;
                    Result.longitude := beach_lon beach |};
               Result.weather := weather;
               Result.safety := safety;
               Result.timestamp := clock world 1 |}).
Proof.
  intros Hbeach Hkey Hfetch Hok Hjson.
  unfold getBeachWeather_try. rewrite Hbeach, Hkey, Hfetch.
  cbn [bind]. rewrite Hok, Hjson. reflexivity.
Qed.

Lemma display_total (w : OpenWeatherResponse) :
  has_blocks w = true -> exists weather, display w = Return weather.
Proof.
  intros H. pose proof (has_blocks_advice w H) as H'. open_payload w H'.
  assert (exists c, clouds w = Some c) as [c Hc].
  { unfold has_blocks in H. destruct (clouds w) as [c|]; [eauto|].
    rewrite !andb_false_r in H. discriminate. }
  unfold display, weather0_main, weather0_description, weather0.
  rewrite Hmain, Hwind, Hweather, Hc. cbn [member bind nth_error].
  eauto.
Qed.

Lemma getUVWarning_total (now : Date) (w : OpenWeatherResponse) :
  has_blocks w = true -> exists uv, getUVWarning now w = Return uv.
Proof.
  unfold has_blocks, getUVWarning.
  destruct (main w) as [m|]; [|discriminate].
  destruct (wind w) as [x|]; [|discriminate].
  destruct (clouds w) as [c|]; [|discriminate].
  intros _. cbn [member bind]. cbv zeta.
  repeat match goal with
         | |- context [if ?b then _ else _] => destruct b
         end; eauto.
Qed.

Lemma assess_total (now : Date) (w : OpenWeatherResponse) :
  has_blocks w = true -> exists safety, assess now w = Return safety.
Proof.
  intros H. unfold assess.
  rewrite (getSafetyAssessment_table w H).
  rewrite (getRecommendations_table w (has_blocks_advice w H)).
  destruct (getUVWarning_total now w H) as [uv ->].
  cbn [bind]. eauto.
Qed.

(** Without one of its objects a payload makes some property read throw,
    in the display record or, for a missing condition keyword, in the
    classifier. *)
Lemma incomplete_payload_throws (now : Date) (w : OpenWeatherResponse) :
  has_blocks w = false ->
  exists p,
    In p ["temp"; "speed"; "0"; "main"; "all"; "toLowerCase"] /\
    (weather <- display w ;; safety <- assess now w ;; Return (weather, safety))
    = Throw (cannot_read p).
Proof.
  unfold has_blocks, raw_text, display, assess, getSafetyAssessment,
    lower_conditions, weather0_main, weather0_description, weather0.
  destruct (main w) as [m|]; cbn [member bind present andb];
    [|exists "temp"; simpl; auto].
  destruct (wind w) as [x|]; cbn [member bind present andb];
    [|exists "speed"; simpl; auto].
  destruct (weather w) as [[|e rest]|]; cbn [member bind nth_error];
    [exists "main"; simpl; auto 10| |exists "0"; simpl; auto 10].
  destruct (clouds w) as [c|]; cbn [member bind present andb];
    [|exists "all"; simpl; auto 10].
  destruct (weather_main e) as [text|]; cbn [member bind present];
    [discriminate|].
  exists "toLowerCase"; simpl; auto 10.
Qed.

(** C2, as the code has it. Nothing validates the payload. When it has the
    objects the tool reads through ([main], [wind], [clouds], the first
    weather entry and its condition keyword), the tool returns a result
    whichever leaf fields are missing: the display record is built and the
    classifier runs on the payload. Otherwise the tool fails with the
    generic error that wraps the [TypeError] of the property read that
    threw. *)
Theorem payload_is_not_validated (world : World) (beachName : string)
  (beach : looked_up) (apiKey : string) (response : Response)
  (weatherData : OpenWeatherResponse) :
  get_beach (JS.trim (JS.toLowerCase beachName)) = Some beach ->
  configured (OPENWEATHER_API_KEY world) = Some apiKey ->
  fetch world {| query_lat := beach_lat beach;
                 query_lon := beach_lon beach;
                 query_appid := apiKey |} = Return response ->
  ok response = true ->
  json response = Return weatherData ->
  if has_blocks weatherData
  then exists weather safety,
      display weatherData = Return weather /\
      assess (clock world 0) weatherData = Return safety /\
      getBeachWeather world beachName =
        Return {| Result.beach := beach_name beach;
                  Result.coordinates :=
                    {| Result.latitude := beach_lat beach;
                       Result.longitude := beach_lon beach |};
                  Result.weather := weather;
                  Result.safety := safety;
                  Result.timestamp := clock world 1 |}
  else exists p,
      getBeachWeather world beachName =
        Throw (Error ("Failed to fetch beach weather data: "
                      ++ message (cannot_read p))).
Proof.
  intros Hbeach Hkey Hfetch Hok Hjson.
  unfold getBeachWeather.
  rewrite (getBeachWeather_try_fetched _ _ _ _ _ _ Hbeach Hkey Hfetch Hok Hjson).
  destruct (has_blocks weatherData) eqn:H.
  - destruct (display_total _ H) as [weather Hd].
    destruct (assess_total (clock world 0) _ H) as [safety Ha].
    exists weather, safety. rewrite Hd, Ha. auto.
  - destruct (incomplete_payload_throws (clock world 0) _ H) as (p & _ & Hp).
    exists p.
    destruct (display weatherData) as [e|weather]; cbn [bind] in *.
    + injection Hp as ->. reflexivity.
    + destruct (assess (clock world 0) weatherData) as [e|safety];
        cbn [bind] in *; [|discriminate].
      injection Hp as ->. reflexivity.
Qed.

Lemma payload_is_not_validated_witness :
  exists weather safety,
    display missing_temperature = Return weather /\
    assess noon missing_temperature = Return safety /\
    getBeachWeather (world_serving missing_temperature) "Coney Island" =
      Return {| Result.beach := Some "Coney Island Beach";
                Result.coordinates :=
                  {| Result.latitude := Some 40.5755%float;
                     Result.longitude := Some (-73.9707)%float |};
                Result.weather := weather;
                Result.safety := safety;
                Result.timestamp := noon |}.
Proof.
  exact (payload_is_not_validated (world_serving missing_temperature)
           "Coney Island"
           (OwnEntry {| lat := 40.5755%float; lon := (-73.9707)%float;
                        name := "Coney Island Beach" |})
           "test-key"
           {| ok := true; status := 200; statusText := "OK";
              json := Return missing_temperature |}
           missing_temperature
           eq_refl eq_refl eq_refl eq_refl eq_refl).
Defined.

(** C2 as the specification states it fails: a payload without [main.temp]
    is accepted. The displayed temperature is [NaN], the classifier runs,
    and with every temperature test false the verdict is GOOD. *)
Lemma missing_temperature_is_accepted :
  raw_temp missing_temperature = None /\
  exists r,
    getBeachWeather (world_serving missing_temperature) "Coney Island"
    = Return r /\
    JS.isNaN (Result.temperature (Result.weather r)) = true /\
    Result.swimmingConditions (Result.safety r) = GOOD /\
    Result.recommendations (Result.safety r) = [LIFEGUARD_REMINDER].
Proof.
  split; [reflexivity|].
  eexists. split; [vm_compute; reflexivity|].
  repeat split.
Qed.

(** ** Display values and classification *)

Lemma getBeachWeather_inv (world : World) (beachName : string) (r : Result.t) :
  getBeachWeather world beachName = Return r ->
  exists request response weatherData,
    fetch world request = Return response /\
    json response = Return weatherData /\
    display weatherData = Return (Result.weather r) /\
    assess (clock world 0) weatherData = Return (Result.safety r).
Proof.
  unfold getBeachWeather, getBeachWeather_try.
  destruct (get_beach _) as [beach|]; [|discriminate].
  destruct (configured _) as [apiKey|]; [|discriminate].
  match goal with |- context [fetch world ?q] => set (request := q) end.
  destruct (fetch world request) as [e|response] eqn:Hfetch;
    [discriminate|]. cbn [bind].
  destruct (ok response); cbn [negb]; [|discriminate].
  destruct (json response) as [e|weatherData] eqn:Hjson;
    [discriminate|]. cbn [bind].
  destruct (display weatherData) as [e|weather] eqn:Hd;
    [discriminate|]. cbn [bind].
  destruct (assess (clock world 0) weatherData) as [e|safety] eqn:Ha;
    [discriminate|]. cbn [bind].
  intros H. injection H as <-.
  exists request, response, weatherData. auto.
Qed.

Lemma display_inv (w : OpenWeatherResponse) (shown : Result.Weather) :
  display w = Return shown ->
  Result.temperature shown = JS.Math_round (JS.ToNumber (raw_temp w)) /\
  Result.feelsLike shown = JS.Math_round (JS.ToNumber (raw_feels_like w)) /\
  Result.windSpeed shown = JS.Math_round (JS.ToNumber (raw_speed w)) /\
  Result.windGust shown =
    (if JS.ToBoolean (raw_gust w)
     then Some (JS.Math_round (JS.ToNumber (raw_gust w)))
     else None) /\
  Result.visibility shown =
    (JS.Math_round (JS.ToNumber (visibility w) / 1609.34 * 10) / 10)%float.
Proof.
  unfold display, weather0_main, weather0_description, weather0,
    raw_temp, raw_feels_like, raw_speed, raw_gust.
  destruct (main w) as [m|]; [|discriminate].
  destruct (wind w) as [x|]; [|discriminate].
  destruct (weather w) as [[|e rest]|]; try discriminate.
  destruct (clouds w) as [c|]; [|discriminate].
  cbn [member bind nth_error]. intros H. injection H as <-.
  cbn. auto.
Qed.

Lemma assess_inv (now : Date) (w : OpenWeatherResponse)
  (safety : Result.Safety) :
  assess now w = Return safety ->
  getSafetyAssessment w = Return (Result.swimmingConditions safety) /\
  getRecommendations w = Return (Result.recommendations safety) /\
  getUVWarning now w = Return (Result.uvWarning safety).
Proof.
  unfold assess.
  destruct (getSafetyAssessment w) as [e|v]; [discriminate|].
  destruct (getRecommendations w) as [e|l]; [discriminate|].
  destruct (getUVWarning now w) as [e|uv]; [discriminate|].
  cbn [bind]. intros H. injection H as <-. auto.
Qed.

(** C7. Whenever the tool returns a result, the verdict and the
    recommendations are those of the classifier on the payload as the
    provider sent it; the rounded numbers exist only in the display
    record: temperature, feels-like and wind speed rounded to the nearest
    integer, the gust likewise when it is reported, and visibility in miles
    to one decimal place. *)
Theorem classification_uses_raw_values (world : World) (beachName : string)
  (r : Result.t) :
  getBeachWeather world beachName = Return r ->
  exists request response weatherData,
    fetch world request = Return response /\
    json response = Return weatherData /\
    getSafetyAssessment weatherData
    = Return (Result.swimmingConditions (Result.safety r)) /\
    getRecommendations weatherData
    = Return (Result.recommendations (Result.safety r)) /\
    Result.temperature (Result.weather r)
    = JS.Math_round (JS.ToNumber (raw_temp weatherData)) /\
    Result.feelsLike (Result.weather r)
    = JS.Math_round (JS.ToNumber (raw_feels_like weatherData)) /\
    Result.windSpeed (Result.weather r)
    = JS.Math_round (JS.ToNumber (raw_speed weatherData)) /\
    Result.windGust (Result.weather r)
    = (if JS.ToBoolean (raw_gust weatherData)
       then Some (JS.Math_round (JS.ToNumber (raw_gust weatherData)))
       else None) /\
    Result.visibility (Result.weather r)
    = (JS.Math_round (JS.ToNumber (visibility weatherData) / 1609.34 * 10)
       / 10)%float.
Proof.
  intros H.
  destruct (getBeachWeather_inv _ _ _ H)
    as (request & response & weatherData & Hfetch & Hjson & Hd & Ha).
  exists request, response, weatherData.
  destruct (assess_inv _ _ _ Ha) as (Hv & Hr & _).
  destruct (display_inv _ _ Hd) as (Ht & Hf & Hs & Hg & Hvis).
  repeat split; assumption.
Qed.

Lemma classification_uses_raw_values_witness :
  getBeachWeather (world_serving boundary_day) "Coney Island"
  = Return boundary_result /\
  Result.temperature (Result.weather boundary_result) = 60%float /\
  Result.swimmingConditions (Result.safety boundary_result) = POOR /\
  getSafetyAssessment boundary_day_as_displayed = Return CAUTION /\
  exists request response weatherData,
    fetch (world_serving boundary_day) request = Return response /\
    json response = Return weatherData /\
    getSafetyAssessment weatherData
    = Return (Result.swimmingConditions (Result.safety boundary_result)) /\
    getRecommendations weatherData
    = Return (Result.recommendations (Result.safety boundary_result)) /\
    Result.temperature (Result.weather boundary_result)
    = JS.Math_round (JS.ToNumber (raw_temp weatherData)) /\
    Result.feelsLike (Result.weather boundary_result)
    = JS.Math_round (JS.ToNumber (raw_feels_like weatherData)) /\
    Result.windSpeed (Result.weather boundary_result)
    = JS.Math_round (JS.ToNumber (raw_speed weatherData)) /\
    Result.windGust (Result.weather boundary_result)
    = (if JS.ToBoolean (raw_gust weatherData)
       then Some (JS.Math_round (JS.ToNumber (raw_gust weatherData)))
       else None) /\
    Result.visibility (Result.weather boundary_result)
    = (JS.Math_round (JS.ToNumber (visibility weatherData) / 1609.34 * 10)
       / 10)%float.
Proof.
  split; [vm_compute; reflexivity|].
  split; [reflexivity|]. split; [reflexivity|].
  split; [vm_compute; reflexivity|].
  apply (classification_uses_raw_values (world_serving boundary_day)
           "Coney Island" boundary_result).
  vm_compute. reflexivity.
Defined.

(** ** Wind gust in the display record *)

(** C5 fails on the code: the gust is kept only when it is truthy, and a
    gust of zero is not. A payload reporting a gust of 0 is displayed
    exactly as the payload that reports no gust: without a gust value. *)
Theorem gust_of_zero_is_dropped :
  raw_gust still_air = Some 0%float /\
  raw_gust still_air_no_gust = None /\
  exists shown,
    display still_air = Return shown /\
    display still_air_no_gust = Return shown /\
    Result.windGust shown = None.
Proof.
  split; [reflexivity|]. split; [reflexivity|].
  eexists. split; [vm_compute; reflexivity|].
  split; vm_compute; reflexivity.
Qed.

(** ** Resolving the beach name *)

Lemma beach_keys :
  List.length (Object_keys beachCoordinates) = 9 /\
  NoDup (Object_keys beachCoordinates).
Proof.
  split; [reflexivity|].
  unfold Object_keys, beachCoordinates. cbn [map fst].
  repeat (constructor;
          [cbn [In]; intros H;
           repeat (destruct H as [H|H]; [discriminate H|]); exact H|]).
  constructor.
Qed.

(** A name for which [beachCoordinates[normalizedName]] is [undefined] is
    refused with the message that lists the nine keys of the table. *)
Lemma unresolved_name_is_refused (world : World) (beachName : string) :
  get_beach (JS.trim (JS.toLowerCase beachName)) = None ->
  getBeachWeather world beachName =
    Throw (Error ("Failed to fetch beach weather data: Beach " ++ dq
                  ++ beachName ++ dq ++ " not found. Available beaches: "
                  ++ "coney island, brighton beach, manhattan beach, "
                  ++ "rockaway beach, orchard beach, south beach, "
                  ++ "midland beach, cedar grove beach, wolfes pond beach")).
Proof.
  intros H. unfold getBeachWeather, getBeachWeather_try. rewrite H.
  reflexivity.
Qed.







(** C9 fails on the code: the table is a plain object, so the lookup of a
    name that is not one of its keys still finds the members the object
    inherits. [constructor] is no key of the table, yet it is not refused
    as an unknown beach: the tool goes on to the key check and the
    request, with coordinates that are [undefined]. *)
Theorem constructor_is_not_refused :
  own_property beachCoordinates (JS.trim (JS.toLowerCase "constructor"))
  = None /\
  getBeachWeather world_without_key "constructor"
  = Throw (Error ("Failed to fetch beach weather data: "
                  ++ "OpenWeather API key not configured in environment variables")) /\
  getBeachWeather world_checking_coordinates "constructor"
  = Throw (Error ("Failed to fetch beach weather data: "
                  ++ "OpenWeather API error: 400 Bad Request")) /\
  exists r,
    getBeachWeather (world_serving fair_day) "constructor" = Return r /\
    Result.beach r = Some "Object" /\
    Result.latitude (Result.coordinates r) = None.
Proof.
  split; [reflexivity|].
  split; [vm_compute; reflexivity|].
  split; [vm_compute; reflexivity|].
  eexists. split; [vm_compute; reflexivity|].
  split; reflexivity.
Qed.

(** * Further properties of the tool *)

(** ** Failures of [getBeachWeather] *)

Lemma cannot_read_message (p : string) :
  message (cannot_read p)
  = "Cannot read properties of undefined (reading '" ++ p ++ "')".
Proof. reflexivity. Qed.






(** X3. For a name that the lookup lets through, a key that is unset or
    empty makes the tool fail with the configuration error, whatever the
    network would have answered. *)
Theorem missing_key_is_refused (world : World) (beachName : string) :
  get_beach (normalize beachName) <> None ->
  OPENWEATHER_API_KEY world = None \/ OPENWEATHER_API_KEY world = Some "" ->
  getBeachWeather world beachName =
    Throw (Error (FAILED
                  ++ "OpenWeather API key not configured in environment variables")).
Proof.
  unfold normalize, getBeachWeather, getBeachWeather_try.
  intros Hbeach Hkey.
  destruct (get_beach _) as [beach|]; [|congruence].
  destruct Hkey as [-> | ->]; reflexivity.
Qed.

Lemma missing_key_is_refused_witness :
  getBeachWeather world_with_empty_key "Orchard Beach" =
    Throw (Error (FAILED
                  ++ "OpenWeather API key not configured in environment variables")).
Proof.
  apply (missing_key_is_refused world_with_empty_key "Orchard Beach");
    [discriminate|right; reflexivity].
Defined.

(** X4. When the provider answers with a status that is not a success,
    the tool fails with that status and its text, and the body of the
    answer is not read. *)
Theorem error_status_is_reported (world : World) (beachName : string)
  (beach : looked_up) (apiKey : string) (response : Response) :
  get_beach (normalize beachName) = Some beach ->
  configured (OPENWEATHER_API_KEY world) = Some apiKey ->
  fetch world {| query_lat := beach_lat beach;
                 query_lon := beach_lon beach;
                 query_appid := apiKey |} = Return response ->
  ok response = false ->
  getBeachWeather world beachName =
    Throw (Error (FAILED ++ "OpenWeather API error: "
                  ++ status_string (status response) ++ " "
                  ++ statusText response)).
Proof.
  unfold normalize, getBeachWeather, getBeachWeather_try.
  intros -> -> Hfetch Hok. rewrite Hfetch. cbn [bind]. rewrite Hok.
  reflexivity.
Qed.

Lemma error_status_is_reported_witness :
  getBeachWeather world_unauthorized "south beach" =
    Throw (Error (FAILED ++ "OpenWeather API error: 401 Unauthorized")).
Proof.
  exact (error_status_is_reported world_unauthorized "south beach"
           (OwnEntry {| lat := 40.5886%float; lon := (-74.0776)%float;
                        name := "South Beach" |})
           "expired-key"
           {| ok := false; status := 401; statusText := "Unauthorized";
              json := Return empty_payload |}
           eq_refl eq_refl eq_refl eq_refl).
Defined.

(** ** Results of [getBeachWeather] *)

(** X5. A result for a name that resolves to an entry of the table
    carries that entry's display name and coordinates; the request that
    produced it went out with the same coordinates and the configured key
    and was answered with a success status. *)
Theorem result_echoes_entry (world : World) (beachName : string)
  (b : Beach) (r : Result.t) :
  own_property beachCoordinates (normalize beachName) = Some b ->
  getBeachWeather world beachName = Return r ->
  Result.beach r = Some (name b) /\
  Result.latitude (Result.coordinates r) = Some (lat b) /\
  Result.longitude (Result.coordinates r) = Some (lon b) /\
  exists apiKey response,
    configured (OPENWEATHER_API_KEY world) = Some apiKey /\
    fetch world {| query_lat := Some (lat b);
                   query_lon := Some (lon b);
                   query_appid := apiKey |} = Return response /\
    ok response = true.
Proof.
  unfold normalize, getBeachWeather, getBeachWeather_try, get_beach.
  intros ->.
  destruct (configured _) as [apiKey|]; [|discriminate].
  cbn [beach_lat beach_lon beach_name].
  destruct (fetch world _) as [e|response] eqn:Hfetch; [discriminate|].
  cbn [bind].
  destruct (ok response) eqn:Hok; cbn [negb]; [|discriminate].
  destruct (json response) as [e|weatherData]; [discriminate|]. cbn [bind].
  destruct (display weatherData) as [e|shown]; [discriminate|]. cbn [bind].
  destruct (assess (clock world 0) weatherData) as [e|safety];
    [discriminate|]. cbn [bind].
  intros H. injection H as <-. cbn. repeat split. eauto.
Qed.

Lemma result_echoes_entry_witness :
  Result.beach boundary_result = Some "Coney Island Beach" /\
  Result.latitude (Result.coordinates boundary_result) = Some 40.5755%float /\
  Result.longitude (Result.coordinates boundary_result)
  = Some (-73.9707)%float /\
  exists apiKey response,
    configured (OPENWEATHER_API_KEY (world_serving boundary_day))
    = Some apiKey /\
    fetch (world_serving boundary_day)
      {| query_lat := Some 40.5755%float;
         query_lon := Some (-73.9707)%float;
         query_appid := apiKey |} = Return response /\
    ok response = true.
Proof.
  apply (result_echoes_entry (world_serving boundary_day) "  CONEY Island "
           {| lat := 40.5755%float; lon := (-73.9707)%float;
              name := "Coney Island Beach" |} boundary_result);
    vm_compute; reflexivity.
Defined.

Lemma subsequence_In {A : Type} (x : A) (l m : list A) :
  subsequence l m -> In x l -> In x m.
Proof.
  induction 1 as [|y l m _ IH|y l m _ IH]; simpl; intuition auto.
Qed.

Lemma subsequence_NoDup {A : Type} (l m : list A) :
  subsequence l m -> NoDup m -> NoDup l.
Proof.
  induction 1 as [|y l m Hs IH|y l m Hs IH]; intros Hnd.
  - constructor.
  - inversion Hnd; auto.
  - inversion Hnd as [|? ? Hy Hm]; subst. constructor; auto.
    intros Hin. apply Hy. eapply subsequence_In; eauto.
Qed.

Lemma Return_inj {A : Type} (a b : A) : Return a = Return b -> a = b.
Proof. intros H. injection H as H. exact H. Qed.

(** What a payload that the three functions accepted must have. *)
Lemma records_return_blocks (now : Date) (w : OpenWeatherResponse)
  (shown : Result.Weather) (safety : Result.Safety) :
  display w = Return shown -> assess now w = Return safety ->
  has_blocks w = true.
Proof.
  intros Hd Ha. destruct (has_blocks w) eqn:Hb; [reflexivity|].
  destruct (incomplete_payload_throws now w Hb) as (p & _ & H).
  rewrite Hd, Ha in H. discriminate.
Qed.

(** X6. Every result the tool returns is well formed: the verdict is one
    of the four verdict lines; the recommendation list starts with the
    lifeguard reminder, holds only advisory lines, none of them twice, and
    at most eight; the UV advisory is absent or one of the two UV lines. *)
Theorem result_is_well_formed (world : World) (beachName : string)
  (r : Result.t) :
  getBeachWeather world beachName = Return r ->
  In (Result.swimmingConditions (Result.safety r))
    [GOOD; CAUTION; POOR; DANGEROUS] /\
  hd_error (Result.recommendations (Result.safety r))
  = Some LIFEGUARD_REMINDER /\
  incl (Result.recommendations (Result.safety r)) ADVISORIES /\
  NoDup (Result.recommendations (Result.safety r)) /\
  List.length (Result.recommendations (Result.safety r)) <= 8 /\
  In (Result.uvWarning (Result.safety r))
    [None; Some UV_HIGH; Some UV_MODERATE].
Proof.
  intros H.
  destruct (getBeachWeather_inv _ _ _ H)
    as (request & response & w & _ & _ & Hd & Ha).
  pose proof (records_return_blocks _ _ _ _ Hd Ha) as Hb.
  destruct (assess_inv _ _ _ Ha) as (Hv & Hr & Hu).
  rewrite (getSafetyAssessment_table w Hb) in Hv.
  apply Return_inj in Hv. rewrite <- Hv.
  rewrite (getRecommendations_table w (has_blocks_advice w Hb)) in Hr.
  apply Return_inj in Hr. rewrite <- Hr.
  split; [destruct (code_verdict w); simpl; auto|].
  split; [reflexivity|].
  split; [intros x; apply subsequence_In, select_subsequence|].
  split; [apply (subsequence_NoDup _ ADVISORIES);
          [apply select_subsequence|apply ADVISORIES_NoDup]|].
  split; [rewrite (select_length _ _ (triggers_length w));
          apply triggers_at_most_8|].
  revert Hu. unfold getUVWarning.
  destruct (main w); [|discriminate]. destruct (clouds w); [|discriminate].
  cbn [member bind]. cbv zeta.
  repeat match goal with
         | |- context [if ?c then _ else _] => destruct c
         end; intros Hu; injection Hu as <-; simpl; auto.
Qed.

Lemma result_is_well_formed_witness :
  In (Result.swimmingConditions (Result.safety boundary_result))
    [GOOD; CAUTION; POOR; DANGEROUS] /\
  hd_error (Result.recommendations (Result.safety boundary_result))
  = Some LIFEGUARD_REMINDER /\
  incl (Result.recommendations (Result.safety boundary_result)) ADVISORIES /\
  NoDup (Result.recommendations (Result.safety boundary_result)) /\
  List.length (Result.recommendations (Result.safety boundary_result)) <= 8 /\
  In (Result.uvWarning (Result.safety boundary_result))
    [None; Some UV_HIGH; Some UV_MODERATE].
Proof.
  apply (result_is_well_formed (world_serving boundary_day) "Coney Island"
           boundary_result).
  vm_compute. reflexivity.
Defined.

(** ** Spelling of the beach name *)

Lemma toLowerCase_app (a b : string) :
  JS.toLowerCase (a ++ b) = JS.toLowerCase a ++ JS.toLowerCase b.
Proof. induction a as [|c a IH]; simpl; [|rewrite IH]; reflexivity. Qed.

Lemma lower_char_space (c : ascii) :
  JS.is_space c = true -> JS.lower_char c = c.
Proof.
  destruct c as [[] [] [] [] [] [] [] []]; vm_compute; intros H;
    try discriminate; reflexivity.
Qed.

Lemma toLowerCase_all_space (pad : string) :
  all_space pad = true -> JS.toLowerCase pad = pad.
Proof.
  induction pad as [|c pad IH]; [reflexivity|].
  cbn [all_space JS.toLowerCase]. intros H.
  apply andb_prop in H as [Hc Hpad].
  rewrite (lower_char_space c Hc), (IH Hpad). reflexivity.
Qed.

Lemma trimStart_all_space (pad s : string) :
  all_space pad = true -> JS.trimStart (pad ++ s) = JS.trimStart s.
Proof.
  induction pad as [|c pad IH]; [reflexivity|].
  cbn [all_space]. intros H. apply andb_prop in H as [Hc Hpad].
  cbn [append JS.trimStart]. rewrite Hc. apply IH, Hpad.
Qed.

Lemma trimStart_only_space (pad : string) :
  all_space pad = true -> JS.trimStart pad = "".
Proof.
  induction pad as [|c pad IH]; [reflexivity|].
  cbn [all_space]. intros H. apply andb_prop in H as [Hc Hpad].
  cbn [JS.trimStart]. rewrite Hc. apply IH, Hpad.
Qed.

Lemma trimEnd_all_space (pad : string) :
  all_space pad = true -> JS.trimEnd pad = "".
Proof.
  induction pad as [|c pad IH]; [reflexivity|].
  cbn [all_space]. intros H. apply andb_prop in H as [Hc Hpad].
  cbn [JS.trimEnd]. rewrite (IH Hpad), Hc. reflexivity.
Qed.

Lemma trimEnd_app_all_space (s pad : string) :
  all_space pad = true -> JS.trimEnd (s ++ pad) = JS.trimEnd s.
Proof.
  intros H. induction s as [|c s IH].
  - apply trimEnd_all_space, H.
  - cbn [append JS.trimEnd]. rewrite IH. reflexivity.
Qed.

Lemma trim_app_all_space (s pad : string) :
  all_space pad = true -> JS.trim (s ++ pad) = JS.trim s.
Proof.
  intros H. unfold JS.trim. induction s as [|c s IH].
  - cbn [append]. rewrite (trimStart_only_space pad H). reflexivity.
  - cbn [append JS.trimStart]. destruct (JS.is_space c); [exact IH|].
    apply (trimEnd_app_all_space (String c s) pad H).
Qed.

(** Two names with the same normal form are treated alike, unless they are
    refused: the refusal quotes the name as it was given. *)
Lemma same_normal_form (world : World) (a b : string) :
  normalize a = normalize b ->
  get_beach (normalize a) <> None ->
  getBeachWeather world a = getBeachWeather world b.
Proof.
  unfold normalize, getBeachWeather, getBeachWeather_try. intros <- H.
  destruct (get_beach _); [reflexivity|congruence].
Qed.

(** X7. The letter case of the name and white space around it do not
    matter: a name that the lookup lets through gives the same outcome
    (the same result or the same failure) as any respelling of it that
    differs only in the case of its letters and in surrounding white
    space. *)
Theorem spelling_is_irrelevant (world : World) (beachName respelled : string)
  (before after : string) :
  JS.toLowerCase respelled = JS.toLowerCase beachName ->
  all_space before = true ->
  all_space after = true ->
  get_beach (normalize beachName) <> None ->
  getBeachWeather world (before ++ respelled ++ after)
  = getBeachWeather world beachName.
Proof.
  intros Hcase Hb Ha Hres. symmetry. apply same_normal_form; [|exact Hres].
  unfold normalize. rewrite !toLowerCase_app, Hcase.
  rewrite (toLowerCase_all_space _ Hb), (toLowerCase_all_space _ Ha).
  unfold JS.trim at 2. rewrite (trimStart_all_space _ _ Hb).
  fold (JS.trim (JS.toLowerCase beachName ++ after)).
  rewrite (trim_app_all_space _ _ Ha). reflexivity.
Qed.

Lemma spelling_is_irrelevant_witness :
  getBeachWeather (world_serving fair_day) ("  " ++ "ROCKAWAY Beach" ++ " ")
  = getBeachWeather (world_serving fair_day) "rockaway beach".
Proof.
  apply (spelling_is_irrelevant (world_serving fair_day) "rockaway beach"
           "ROCKAWAY Beach" "  " " ");
    [reflexivity|reflexivity|reflexivity|discriminate].
Defined.

(** X8. Every key that the refusal lists is accepted as a name: it is its
    own normal form and the lookup finds the entry it belongs to. *)
Theorem listed_keys_resolve (k : string) :
  In k (Object_keys beachCoordinates) ->
  normalize k = k /\
  exists b, In (k, b) beachCoordinates /\ get_beach (normalize k) = Some (OwnEntry b).
Proof.
  unfold Object_keys, beachCoordinates. cbn [map fst In].
  intros H.
  repeat (destruct H as [<-|H];
          [split; [reflexivity|eexists; split; [|reflexivity]; cbn; auto 12]|]).
  contradiction.
Qed.

Lemma listed_keys_resolve_witness :
  normalize "midland beach" = "midland beach" /\
  exists b, In ("midland beach", b) beachCoordinates /\
            get_beach (normalize "midland beach") = Some (OwnEntry b).
Proof.
  apply (listed_keys_resolve "midland beach"). cbn. auto 12.
Defined.

(** X9. The display name that a result carries is not always a name the
    tool accepts: it resolves back to its entry for seven of the nine
    beaches, and is refused for Coney Island Beach (the key lacks the word
    beach) and for Wolfe's Pond Beach (the key lacks the apostrophe). *)
Theorem display_name_round_trip (k : string) (b : Beach) :
  In (k, b) beachCoordinates ->
  if String.eqb k "coney island" || String.eqb k "wolfes pond beach"
  then get_beach (normalize (name b)) = None
  else get_beach (normalize (name b)) = Some (OwnEntry b).
Proof.
  unfold beachCoordinates. cbn [In]. intros H.
  repeat (destruct H as [H|H]; [injection H as <- <-; reflexivity|]).
  contradiction.
Qed.

Lemma display_name_round_trip_witness :
  get_beach (normalize "Coney Island Beach") = None.
Proof.
  apply (display_name_round_trip "coney island"
           {| lat := 40.5755%float; lon := (-73.9707)%float;
              name := "Coney Island Beach" |}).
  cbn. auto.
Defined.

(** ** The verdict and the advice together *)

Lemma getRecommendations_blocks (w : OpenWeatherResponse)
  (recommendations : list string) :
  getRecommendations w = Return recommendations ->
  has_advice_blocks w = true.
Proof.
  unfold getRecommendations, lower_conditions, weather0_main, weather0,
    has_advice_blocks, raw_text.
  destruct (main w); [|discriminate]. destruct (wind w); [|discriminate].
  destruct (weather w) as [[|e rest]|]; try discriminate.
  cbn [member bind nth_error]. destruct (weather_main e); [|discriminate].
  reflexivity.
Qed.

Lemma temperature_flags :
  map is_temperature_advisory ADVISORIES
  = [ false; false; false; false; false; false; true; true; false; false;
      false; false; false ].
Proof. vm_compute. reflexivity. Qed.

Lemma heat_flags :
  map is_heat_advisory ADVISORIES
  = [ false; false; false; false; false; false; false; false; true; true;
      false; false; false ].
Proof. vm_compute. reflexivity. Qed.

(** X10. The list has at most one temperature line and at most one
    feels-like line: the hypothermia warning below 65 degrees, otherwise
    the wetsuit suggestion below 75; the heat warning when it feels hotter
    than 90, otherwise the sunscreen reminder when it feels hotter than
    85. *)
Theorem temperature_lines_exclusive (w : OpenWeatherResponse) :
  has_advice_blocks w = true ->
  exists recommendations,
    getRecommendations w = Return recommendations /\
    filter is_temperature_advisory recommendations =
      (if JS.lt (raw_temp w) 65 then [HYPOTHERMIA_WARNING]
       else if JS.lt (raw_temp w) 75 then [COOL_SUGGESTION]
       else []) /\
    filter is_heat_advisory recommendations =
      (if JS.gt (raw_feels_like w) 90 then [HEAT_WARNING]
       else if JS.gt (raw_feels_like w) 85 then [SUNSCREEN_REMINDER]
       else []).
Proof.
  intros H. exists (select (triggers w) ADVISORIES).
  split; [apply getRecommendations_table, H|].
  rewrite !filter_select, temperature_flags, heat_flags.
  unfold triggers, both, ADVISORIES.
  cbn [combine map fst snd]. rewrite !andb_false_r, !andb_true_r.
  cbn [select].
  split.
  - destruct (JS.lt (raw_temp w) 65), (JS.lt (raw_temp w) 75); reflexivity.
  - destruct (JS.gt (raw_feels_like w) 90), (JS.gt (raw_feels_like w) 85);
      reflexivity.
Qed.

Lemma temperature_lines_exclusive_witness :
  exists recommendations,
    getRecommendations foggy_day = Return recommendations /\
    filter is_temperature_advisory recommendations =
      (if JS.lt (raw_temp foggy_day) 65 then [HYPOTHERMIA_WARNING]
       else if JS.lt (raw_temp foggy_day) 75 then [COOL_SUGGESTION]
       else []) /\
    filter is_heat_advisory recommendations =
      (if JS.gt (raw_feels_like foggy_day) 90 then [HEAT_WARNING]
       else if JS.gt (raw_feels_like foggy_day) 85 then [SUNSCREEN_REMINDER]
       else []).
Proof. apply (temperature_lines_exclusive foggy_day). reflexivity. Defined.

Lemma verdict_lines_differ :
  GOOD <> CAUTION /\ GOOD <> POOR /\ GOOD <> DANGEROUS /\
  CAUTION <> POOR /\ CAUTION <> DANGEROUS /\ POOR <> DANGEROUS.
Proof. repeat split; discriminate. Qed.

(** What [getSafetyAssessment] answers, by the tests it makes in turn. *)
Lemma getSafetyAssessment_cascade (w : OpenWeatherResponse) (text : string) :
  has_advice_blocks w = true ->
  raw_text w = Some text ->
  getSafetyAssessment w =
    let conditions := JS.toLowerCase text in
    if JS.includes conditions "storm" then Return DANGEROUS
    else if JS.gt (raw_speed w) 15 || JS.lt (raw_temp w) 60
            || JS.includes conditions "rain" || JS.lt (visibility w) 1000
    then Return POOR
    else if JS.gt (raw_speed w) 10 || JS.lt (raw_temp w) 70
            || JS.includes conditions "drizzle"
    then Return CAUTION
    else match clouds w with
         | Some c => if JS.gt (clouds_all c) 80 then Return CAUTION
                     else Return GOOD
         | None => Throw (cannot_read "all")
         end.
Proof.
  intros H Ht. open_payload w H.
  unfold raw_text in Ht. rewrite Hweather, Htext in Ht.
  apply (f_equal (fun o => match o with Some t => t | None => "" end)) in Ht.
  cbn in Ht. subst text0.
  unfold getSafetyAssessment, lower_conditions, weather0_main, weather0,
    raw_speed, raw_temp.
  rewrite Hmain, Hwind, Hweather.
  cbn [member bind nth_error]. rewrite Htext. cbn [member bind]. cbv zeta.
  pose proof (includes_thunderstorm_storm (JS.toLowerCase text)) as Hts.
  destruct (JS.includes (JS.toLowerCase text) "storm");
    destruct (JS.includes (JS.toLowerCase text) "thunderstorm");
    try (specialize (Hts eq_refl); discriminate); try reflexivity.
  cbn [orb]. destruct (clouds w); reflexivity.
Qed.

(** X11. A verdict of GOOD means that no rule matched: the condition
    keyword has none of the cues storm, rain and drizzle, the wind is not
    above 10, the temperature not below 70, the visibility not below
    1000 m and the cloud cover not above 80. *)
Theorem good_means_no_rule_matched (w : OpenWeatherResponse) :
  getSafetyAssessment w = Return GOOD ->
  exists text,
    raw_text w = Some text /\
    JS.includes (JS.toLowerCase text) "storm" = false /\
    JS.includes (JS.toLowerCase text) "rain" = false /\
    JS.includes (JS.toLowerCase text) "drizzle" = false /\
    JS.gt (raw_speed w) 10 = false /\
    JS.lt (raw_temp w) 70 = false /\
    JS.lt (visibility w) 1000 = false /\
    JS.gt (raw_cloud w) 80 = false.
Proof.
  intros H.
  assert (Hb : has_advice_blocks w = true).
  { revert H. unfold getSafetyAssessment, lower_conditions, weather0_main,
      weather0, has_advice_blocks, raw_text.
    destruct (main w); [|discriminate]. destruct (wind w); [|discriminate].
    destruct (weather w) as [[|e rest]|]; try discriminate.
    cbn [member bind nth_error]. destruct (weather_main e); [|discriminate].
    reflexivity. }
  assert (exists text, raw_text w = Some text) as [text Ht].
  { unfold has_advice_blocks in Hb. destruct (raw_text w) as [t|]; [eauto|].
    rewrite andb_false_r in Hb. discriminate. }
  exists text. split; [exact Ht|].
  rewrite (getSafetyAssessment_cascade w text Hb Ht) in H. cbv zeta in H.
  destruct verdict_lines_differ as (Hgc & Hgp & Hgd & _).
  unfold raw_cloud.
  destruct (JS.includes (JS.toLowerCase text) "storm");
    [apply Return_inj in H; congruence|].
  destruct (JS.gt (raw_speed w) 15); [apply Return_inj in H; congruence|].
  destruct (JS.lt (raw_temp w) 60); [apply Return_inj in H; congruence|].
  destruct (JS.includes (JS.toLowerCase text) "rain");
    [apply Return_inj in H; congruence|].
  destruct (JS.lt (visibility w) 1000); [apply Return_inj in H; congruence|].
  destruct (JS.gt (raw_speed w) 10); [apply Return_inj in H; congruence|].
  destruct (JS.lt (raw_temp w) 70); [apply Return_inj in H; congruence|].
  destruct (JS.includes (JS.toLowerCase text) "drizzle");
    [apply Return_inj in H; congruence|].
  cbn [orb] in H. destruct (clouds w) as [c|]; [|discriminate].
  destruct (JS.gt (clouds_all c) 80); [apply Return_inj in H; congruence|].
  repeat split.
Qed.

Lemma good_means_no_rule_matched_witness :
  exists text,
    raw_text fair_day = Some text /\
    JS.includes (JS.toLowerCase text) "storm" = false /\
    JS.includes (JS.toLowerCase text) "rain" = false /\
    JS.includes (JS.toLowerCase text) "drizzle" = false /\
    JS.gt (raw_speed fair_day) 10 = false /\
    JS.lt (raw_temp fair_day) 70 = false /\
    JS.lt (visibility fair_day) 1000 = false /\
    JS.gt (raw_cloud fair_day) 80 = false.
Proof.
  apply (good_means_no_rule_matched fair_day). vm_compute. reflexivity.
Defined.

(** X12. A verdict of POOR never comes without an advisory that accounts
    for it: the list then has the rain caution, the gust or the
    rip-current warning, the hypothermia warning or the visibility
    warning. *)
Theorem poor_verdict_is_explained (w : OpenWeatherResponse)
  (recommendations : list string) :
  getSafetyAssessment w = Return POOR ->
  getRecommendations w = Return recommendations ->
  In RAIN_CAUTION recommendations \/
  In GUST_WARNING recommendations \/
  In RIP_CURRENT_WARNING recommendations \/
  In HYPOTHERMIA_WARNING recommendations \/
  In VISIBILITY_WARNING recommendations.
Proof.
  intros Hv Hr.
  pose proof (getRecommendations_blocks w _ Hr) as Hb.
  assert (exists text, raw_text w = Some text) as [text Ht].
  { unfold has_advice_blocks in Hb. destruct (raw_text w) as [t|]; [eauto|].
    rewrite andb_false_r in Hb. discriminate. }
  rewrite (getRecommendations_table w Hb) in Hr. apply Return_inj in Hr.
  subst recommendations.
  rewrite (getSafetyAssessment_cascade w text Hb Ht) in Hv. cbv zeta in Hv.
  destruct verdict_lines_differ as (_ & Hgp & _ & Hcp & _ & Hpd).
  assert (Hsel : forall i line b,
             nth_error ADVISORIES i = Some line ->
             nth_error (triggers w) i = Some b -> b = true ->
             In line (select (triggers w) ADVISORIES)).
  { intros i line b Hl Hb' ->.
    apply (In_select_nth _ true i _ _ ADVISORIES_NoDup Hl Hb'). reflexivity. }
  destruct (JS.includes (JS.toLowerCase text) "storm");
    [apply Return_inj in Hv; congruence|].
  destruct (JS.gt (raw_speed w) 15) eqn:Hs15.
  { destruct (JS.ToBoolean (raw_gust w) && JS.gt (raw_gust w) 20) eqn:Hg.
    - right; left. apply (Hsel 3 _ _ eq_refl eq_refl). exact Hg.
    - right; right; left. apply (Hsel 4 _ _ eq_refl eq_refl).
      rewrite Hg, Hs15. reflexivity. }
  destruct (JS.lt (raw_temp w) 60) eqn:Ht60.
  { do 3 right; left. apply (Hsel 6 _ _ eq_refl eq_refl).
    apply (lt_weaken _ 60 65 eq_refl Ht60). }
  destruct (JS.includes (JS.toLowerCase text) "rain") eqn:Hrain.
  { left. apply (Hsel 2 _ _ eq_refl eq_refl).
    unfold triggers in *. rewrite Ht. exact Hrain. }
  destruct (JS.lt (visibility w) 1000) eqn:Hvis.
  { do 4 right. apply (Hsel 10 _ _ eq_refl eq_refl). exact Hvis. }
  cbn [orb] in Hv.
  destruct (JS.gt (raw_speed w) 10 || JS.lt (raw_temp w) 70
            || JS.includes (JS.toLowerCase text) "drizzle");
    [apply Return_inj in Hv; congruence|].
  destruct (clouds w) as [c|]; [|discriminate].
  destruct (JS.gt (clouds_all c) 80); apply Return_inj in Hv; congruence.
Qed.

Lemma poor_verdict_is_explained_witness :
  In RAIN_CAUTION
    [LIFEGUARD_REMINDER; RIP_CURRENT_WARNING; HYPOTHERMIA_WARNING;
     VISIBILITY_WARNING] \/
  In GUST_WARNING
    [LIFEGUARD_REMINDER; RIP_CURRENT_WARNING; HYPOTHERMIA_WARNING;
     VISIBILITY_WARNING] \/
  In RIP_CURRENT_WARNING
    [LIFEGUARD_REMINDER; RIP_CURRENT_WARNING; HYPOTHERMIA_WARNING;
     VISIBILITY_WARNING] \/
  In HYPOTHERMIA_WARNING
    [LIFEGUARD_REMINDER; RIP_CURRENT_WARNING; HYPOTHERMIA_WARNING;
     VISIBILITY_WARNING] \/
  In VISIBILITY_WARNING
    [LIFEGUARD_REMINDER; RIP_CURRENT_WARNING; HYPOTHERMIA_WARNING;
     VISIBILITY_WARNING].
Proof.
  apply (poor_verdict_is_explained foggy_day); vm_compute; reflexivity.
Defined.

(** Line [i] of [ADVISORIES] is in the list exactly when trigger [i]
    fires. *)
Lemma line_in_list (w : OpenWeatherResponse) (i : nat) (line : string)
  (b : bool) :
  nth_error ADVISORIES i = Some line ->
  nth_error (triggers w) i = Some b ->
  (In line (select (triggers w) ADVISORIES) <-> b = true).
Proof. intros Hl Hb. apply (In_select_nth _ _ i _ _ ADVISORIES_NoDup Hl Hb). Qed.

(** X13. The verdict can be DANGEROUS with no line in the list that says
    so: when the condition keyword contains [storm] but not
    [thunderstorm], the verdict is DANGEROUS and the warning to leave the
    water is not among the recommendations. *)
Theorem storm_without_exit_warning (w : OpenWeatherResponse) (text : string) :
  has_advice_blocks w = true ->
  raw_text w = Some text ->
  JS.includes (JS.toLowerCase text) "storm" = true ->
  JS.includes (JS.toLowerCase text) "thunderstorm" = false ->
  exists recommendations,
    getSafetyAssessment w = Return DANGEROUS /\
    getRecommendations w = Return recommendations /\
    ~ In THUNDERSTORM_WARNING recommendations.
Proof.
  intros Hb Ht Hstorm Hthunder.
  exists (select (triggers w) ADVISORIES).
  split; [|split].
  - rewrite (getSafetyAssessment_cascade w text Hb Ht). cbv zeta.
    rewrite Hstorm. reflexivity.
  - apply getRecommendations_table, Hb.
  - intros Hin.
    apply (In_select_nth _ (JS.includes (JS.toLowerCase text) "thunderstorm")
             1 _ _ ADVISORIES_NoDup eq_refl) in Hin.
    + congruence.
    + unfold triggers. rewrite Ht. reflexivity.
Qed.

Lemma storm_without_exit_warning_witness :
  exists recommendations,
    getSafetyAssessment tropical_storm = Return DANGEROUS /\
    getRecommendations tropical_storm = Return recommendations /\
    ~ In THUNDERSTORM_WARNING recommendations.
Proof.
  apply (storm_without_exit_warning tropical_storm "Tropical Storm");
    reflexivity.
Defined.

(** X14. The excellent-conditions note is in the list exactly when the
    keyword contains [clear], the temperature is above 75 and the wind
    below 10; when it is, the list has neither temperature line, neither
    the rip-current warning nor the moderate-wind caution. *)
Theorem excellent_note_conditions (w : OpenWeatherResponse) (text : string) :
  has_advice_blocks w = true ->
  raw_text w = Some text ->
  exists recommendations,
    getRecommendations w = Return recommendations /\
    (In EXCELLENT_NOTE recommendations <->
     JS.includes (JS.toLowerCase text) "clear" && JS.gt (raw_temp w) 75
     && JS.lt (raw_speed w) 10 = true) /\
    (In EXCELLENT_NOTE recommendations ->
     ~ In HYPOTHERMIA_WARNING recommendations /\
     ~ In COOL_SUGGESTION recommendations /\
     ~ In RIP_CURRENT_WARNING recommendations /\
     ~ In MODERATE_WIND_CAUTION recommendations).
Proof.
  intros Hb Ht. exists (select (triggers w) ADVISORIES).
  split; [apply getRecommendations_table, Hb|].
  assert (Hiff : In EXCELLENT_NOTE (select (triggers w) ADVISORIES) <->
                 JS.includes (JS.toLowerCase text) "clear"
                 && JS.gt (raw_temp w) 75 && JS.lt (raw_speed w) 10 = true).
  { apply (In_select_nth _ _ 12 _ _ ADVISORIES_NoDup); [reflexivity|].
    unfold triggers. rewrite Ht. reflexivity. }
  split; [exact Hiff|].
  intros Hin. apply Hiff in Hin.
  apply andb_prop in Hin as [Hin Hcalm]. apply andb_prop in Hin as [_ Hwarm].
  assert (H65 : JS.lt (raw_temp w) 65 = false).
  { destruct (JS.lt (raw_temp w) 65) eqn:E; [|reflexivity].
    rewrite (lt_excludes_gt _ 65 75 eq_refl E) in Hwarm. discriminate. }
  assert (H75 : JS.lt (raw_temp w) 75 = false).
  { destruct (JS.lt (raw_temp w) 75) eqn:E; [|reflexivity].
    rewrite (lt_excludes_gt _ 75 75 eq_refl E) in Hwarm. discriminate. }
  pose proof (lt_excludes_gt _ 10 15 eq_refl Hcalm) as H15.
  pose proof (lt_excludes_gt _ 10 10 eq_refl Hcalm) as H10.
  repeat split; intros Hin.
  - apply (line_in_list w 6 _ _ eq_refl eq_refl) in Hin. congruence.
  - apply (line_in_list w 7 _ _ eq_refl eq_refl) in Hin.
    rewrite H75, andb_false_r in Hin. discriminate.
  - apply (line_in_list w 4 _ _ eq_refl eq_refl) in Hin.
    rewrite H15, andb_false_r in Hin. discriminate.
  - apply (line_in_list w 5 _ _ eq_refl eq_refl) in Hin.
    rewrite H10, andb_false_r in Hin. discriminate.
Qed.

Lemma excellent_note_conditions_witness :
  exists recommendations,
    getRecommendations fair_day = Return recommendations /\
    (In EXCELLENT_NOTE recommendations <->
     JS.includes (JS.toLowerCase "Clear") "clear" && JS.gt (raw_temp fair_day) 75
     && JS.lt (raw_speed fair_day) 10 = true) /\
    (In EXCELLENT_NOTE recommendations ->
     ~ In HYPOTHERMIA_WARNING recommendations /\
     ~ In COOL_SUGGESTION recommendations /\
     ~ In RIP_CURRENT_WARNING recommendations /\
     ~ In MODERATE_WIND_CAUTION recommendations).
Proof.
  apply (excellent_note_conditions fair_day "Clear"); reflexivity.
Defined.

(** X15. Whenever the gust warning is in the list, the display record
    carries the gust, rounded. *)
Theorem gust_warning_shows_gust (w : OpenWeatherResponse)
  (shown : Result.Weather) (recommendations : list string) :
  display w = Return shown ->
  getRecommendations w = Return recommendations ->
  In GUST_WARNING recommendations ->
  Result.windGust shown = Some (JS.Math_round (JS.ToNumber (raw_gust w))).
Proof.
  intros Hd Hr Hin.
  pose proof (getRecommendations_blocks w _ Hr) as Hb.
  rewrite (getRecommendations_table w Hb) in Hr. apply Return_inj in Hr.
  subst recommendations.
  apply (line_in_list w 3 _ _ eq_refl eq_refl) in Hin.
  apply andb_prop in Hin as [Htruthy _].
  destruct (display_inv w shown Hd) as (_ & _ & _ & Hg & _).
  rewrite Hg, Htruthy. reflexivity.
Qed.

Lemma gust_warning_shows_gust_witness :
  Result.windGust
    {| Result.temperature := 72%float; Result.feelsLike := 72%float;
       Result.humidity := Some 50%float; Result.windSpeed := 8%float;
       Result.windDirection := Some 180%float;
       Result.windGust := Some 25%float;
       Result.conditions := Some "Clouds";
       Result.description := Some "Clouds";
       Result.visibility := 6.2%float; Result.pressure := Some 1013%float;
       Result.cloudCover := Some 50%float |}
  = Some (JS.Math_round (JS.ToNumber (raw_gust gusty_day))).
Proof.
  apply (gust_warning_shows_gust gusty_day _
           [LIFEGUARD_REMINDER; GUST_WARNING; COOL_SUGGESTION]);
    [vm_compute; reflexivity|vm_compute; reflexivity|simpl; auto].
Defined.

(** ** The UV advisory *)

(** X16. With [main] and [clouds] in the payload, [getUVWarning] returns
    an advisory exactly when the local hour is from 9 to 17 and the cloud
    cover is below 70; the advisory is the high one exactly when the hour
    is from 10 to 16, the cloud cover below 30 and the temperature above
    70. At night, under heavy cloud, or without a cloud reading there is
    none. *)
Theorem uv_advisory_conditions (now : Date) (w : OpenWeatherResponse) :
  present (main w) && present (clouds w) = true ->
  exists uv,
    getUVWarning now w = Return uv /\
    (uv = Some UV_HIGH <->
     (10 <= getHours now <= 16)%Z /\ JS.lt (raw_cloud w) 30 = true
     /\ JS.gt (raw_temp w) 70 = true) /\
    (uv <> None <->
     (9 <= getHours now <= 17)%Z /\ JS.lt (raw_cloud w) 70 = true).
Proof.
  unfold getUVWarning, raw_cloud, raw_temp.
  destruct (main w) as [m|]; [|discriminate].
  destruct (clouds w) as [c|]; [|discriminate].
  intros _. cbn [member bind]. cbv zeta.
  pose proof (lt_weaken (clouds_all c) 30 70 eq_refl) as Hcloud.
  assert (Hne : UV_HIGH <> UV_MODERATE) by discriminate.
  destruct (Z.leb_spec 10 (getHours now)), (Z.leb_spec (getHours now) 16),
    (Z.leb_spec 9 (getHours now)), (Z.leb_spec (getHours now) 17);
    try lia;
    destruct (JS.lt (clouds_all c) 30) eqn:H30;
    try (specialize (Hcloud eq_refl); rewrite Hcloud);
    destruct (JS.gt (main_temp m) 70) eqn:H70;
    try destruct (JS.lt (clouds_all c) 70) eqn:H70c;
    cbn [andb];
    eexists; (split; [reflexivity|]);
    split; split; try congruence; try discriminate;
    intuition (try congruence; try lia; try discriminate).
Qed.

Lemma uv_advisory_conditions_witness :
  exists uv,
    getUVWarning noon fair_day = Return uv /\
    (uv = Some UV_HIGH <->
     (10 <= getHours noon <= 16)%Z /\ JS.lt (raw_cloud fair_day) 30 = true
     /\ JS.gt (raw_temp fair_day) 70 = true) /\
    (uv <> None <->
     (9 <= getHours noon <= 17)%Z /\ JS.lt (raw_cloud fair_day) 70 = true).
Proof. apply (uv_advisory_conditions noon fair_day). reflexivity. Defined.

(** ** Missing readings, stronger wind, colder air *)

Lemma getSafetyAssessment_blocks (w : OpenWeatherResponse) (v : string) :
  getSafetyAssessment w = Return v -> has_advice_blocks w = true.
Proof.
  unfold getSafetyAssessment, lower_conditions, weather0_main, weather0,
    has_advice_blocks, raw_text.
  destruct (main w); [|discriminate]. destruct (wind w); [|discriminate].
  destruct (weather w) as [[|e rest]|]; try discriminate.
  cbn [member bind nth_error]. destruct (weather_main e); [|discriminate].
  reflexivity.
Qed.

Lemma has_advice_blocks_text (w : OpenWeatherResponse) :
  has_advice_blocks w = true -> exists text, raw_text w = Some text.
Proof.
  unfold has_advice_blocks. destruct (raw_text w) as [t|]; [eauto|].
  rewrite andb_false_r. discriminate.
Qed.

(** X17. Readings that are missing never count against swimming. When
    the payload has its objects but no temperature, wind speed,
    visibility or cloud cover, the verdict follows from the condition
    keyword alone, and it is GOOD when the keyword has no cue. *)
Theorem missing_readings_fail_open (w : OpenWeatherResponse) (text : string) :
  has_blocks w = true ->
  raw_text w = Some text ->
  raw_temp w = None -> raw_speed w = None ->
  visibility w = None -> raw_cloud w = None ->
  getSafetyAssessment w =
    Return (if JS.includes (JS.toLowerCase text) "storm" then DANGEROUS
            else if JS.includes (JS.toLowerCase text) "rain" then POOR
            else if JS.includes (JS.toLowerCase text) "drizzle" then CAUTION
            else GOOD).
Proof.
  intros Hb Ht Htemp Hspeed Hvis Hcloud.
  rewrite (getSafetyAssessment_cascade w text (has_blocks_advice w Hb) Ht).
  cbv zeta. rewrite Htemp, Hspeed, Hvis.
  destruct (undefined_compares_false 15%float) as [_ ->].
  destruct (undefined_compares_false 60%float) as [-> _].
  destruct (undefined_compares_false 1000%float) as [-> _].
  destruct (undefined_compares_false 10%float) as [_ ->].
  destruct (undefined_compares_false 70%float) as [-> _].
  cbn [orb]. rewrite orb_false_r.
  unfold raw_cloud in Hcloud.
  destruct (clouds w) as [c|] eqn:Hclouds.
  - rewrite Hcloud. destruct (undefined_compares_false 80%float) as [_ ->].
    destruct (JS.includes (JS.toLowerCase text) "storm"),
      (JS.includes (JS.toLowerCase text) "rain"),
      (JS.includes (JS.toLowerCase text) "drizzle"); reflexivity.
  - unfold has_blocks in Hb. rewrite Hclouds in Hb.
    destruct (present (main w)), (present (wind w)); discriminate.
Qed.

Lemma missing_readings_fail_open_witness :
  getSafetyAssessment (no_readings "Clear") =
    Return (if JS.includes (JS.toLowerCase "Clear") "storm" then DANGEROUS
            else if JS.includes (JS.toLowerCase "Clear") "rain" then POOR
            else if JS.includes (JS.toLowerCase "Clear") "drizzle" then CAUTION
            else GOOD).
Proof.
  apply (missing_readings_fail_open (no_readings "Clear") "Clear");
    reflexivity.
Defined.

(** Settles a comparison of two verdicts once both are known. *)
Ltac settle_verdicts H v :=
  solve [ destruct v; cbn [verdict_text] in H; try discriminate H;
          apply Return_inj in H; try congruence;
          first [ exists V_DANGEROUS; split; [reflexivity|simpl; lia]
                | exists V_POOR; split; [reflexivity|simpl; lia]
                | exists V_CAUTION; split; [reflexivity|simpl; lia]
                | exists V_GOOD; split; [reflexivity|simpl; lia] ] ].

(** X18. More wind never gives a milder verdict: when the verdict for a
    payload is [v], the verdict for the same payload with a higher wind
    speed exists and is at least as severe. *)
Theorem stronger_wind_never_milder (w : OpenWeatherResponse)
  (speed : JS.number) (v : Verdict) :
  (JS.ToNumber (raw_speed w) <? speed)%float = true ->
  getSafetyAssessment w = Return (verdict_text v) ->
  exists v',
    getSafetyAssessment (with_speed w speed) = Return (verdict_text v') /\
    severity v <= severity v'.
Proof.
  intros Hmore H.
  pose proof (getSafetyAssessment_blocks w _ H) as Hb.
  destruct (has_advice_blocks_text w Hb) as [text Ht].
  destruct (has_advice_blocks_inv w Hb) as (m & x & e & rest & t & Hm & Hx & _).
  assert (Hb' : has_advice_blocks (with_speed w speed) = true).
  { revert Hb. unfold has_advice_blocks, raw_text, with_speed.
    cbn [main wind weather]. rewrite Hx. auto. }
  rewrite (getSafetyAssessment_cascade w text Hb Ht) in H.
  rewrite (getSafetyAssessment_cascade (with_speed w speed) text Hb' Ht).
  assert (Hs : raw_speed (with_speed w speed) = Some speed).
  { unfold raw_speed, with_speed. cbn [wind]. rewrite Hx. reflexivity. }
  change (raw_temp (with_speed w speed)) with (raw_temp w).
  change (visibility (with_speed w speed)) with (visibility w).
  change (clouds (with_speed w speed)) with (clouds w).
  rewrite Hs. cbv zeta in *.
  assert (H15 : JS.gt (raw_speed w) 15 = true -> JS.gt (Some speed) 15 = true).
  { unfold JS.gt. intros E. exact (ltb_trans _ _ _ E Hmore). }
  assert (H10 : JS.gt (raw_speed w) 10 = true -> JS.gt (Some speed) 10 = true).
  { unfold JS.gt. intros E. exact (ltb_trans _ _ _ E Hmore). }
  destruct verdict_lines_differ as (? & ? & ? & ? & ? & ?).
  destruct (JS.includes (JS.toLowerCase text) "storm");
    [settle_verdicts H v|].
  destruct (JS.gt (raw_speed w) 15);
    [rewrite (H15 eq_refl); settle_verdicts H v|clear H15].
  destruct (JS.gt (raw_speed w) 10);
    [rewrite (H10 eq_refl)|clear H10];
    destruct (JS.gt (Some speed) 15), (JS.gt (Some speed) 10),
      (JS.lt (raw_temp w) 60),
      (JS.includes (JS.toLowerCase text) "rain"),
      (JS.lt (visibility w) 1000); cbn [orb] in *;
    try settle_verdicts H v;
    destruct (JS.lt (raw_temp w) 70),
      (JS.includes (JS.toLowerCase text) "drizzle"); cbn [orb] in *;
    try settle_verdicts H v;
    (destruct (clouds w) as [c|]; [|discriminate H]);
    destruct (JS.gt (clouds_all c) 80); settle_verdicts H v.
Qed.

Lemma stronger_wind_never_milder_witness :
  exists v',
    getSafetyAssessment (with_speed fair_day 12%float)
    = Return (verdict_text v') /\
    severity V_GOOD <= severity v'.
Proof.
  apply (stronger_wind_never_milder fair_day 12%float V_GOOD);
    vm_compute; reflexivity.
Defined.

(** X19. Colder air never gives a milder verdict: when the verdict for a
    payload is [v], the verdict for the same payload with a lower
    temperature exists and is at least as severe. *)
Theorem colder_air_never_milder (w : OpenWeatherResponse)
  (temp : JS.number) (v : Verdict) :
  (temp <? JS.ToNumber (raw_temp w))%float = true ->
  getSafetyAssessment w = Return (verdict_text v) ->
  exists v',
    getSafetyAssessment (with_temp w temp) = Return (verdict_text v') /\
    severity v <= severity v'.
Proof.
  intros Hless H.
  pose proof (getSafetyAssessment_blocks w _ H) as Hb.
  destruct (has_advice_blocks_text w Hb) as [text Ht].
  destruct (has_advice_blocks_inv w Hb) as (m & x & e & rest & t & Hm & Hx & _).
  assert (Hb' : has_advice_blocks (with_temp w temp) = true).
  { revert Hb. unfold has_advice_blocks, raw_text, with_temp.
    cbn [main wind weather]. rewrite Hm. auto. }
  rewrite (getSafetyAssessment_cascade w text Hb Ht) in H.
  rewrite (getSafetyAssessment_cascade (with_temp w temp) text Hb' Ht).
  assert (Hs : raw_temp (with_temp w temp) = Some temp).
  { unfold raw_temp, with_temp. cbn [main]. rewrite Hm. reflexivity. }
  change (raw_speed (with_temp w temp)) with (raw_speed w).
  change (visibility (with_temp w temp)) with (visibility w).
  change (clouds (with_temp w temp)) with (clouds w).
  rewrite Hs. cbv zeta in *.
  assert (H60 : JS.lt (raw_temp w) 60 = true -> JS.lt (Some temp) 60 = true).
  { unfold JS.lt. intros E. exact (ltb_trans _ _ _ Hless E). }
  assert (H70 : JS.lt (raw_temp w) 70 = true -> JS.lt (Some temp) 70 = true).
  { unfold JS.lt. intros E. exact (ltb_trans _ _ _ Hless E). }
  destruct verdict_lines_differ as (? & ? & ? & ? & ? & ?).
  destruct (JS.includes (JS.toLowerCase text) "storm");
    [settle_verdicts H v|].
  destruct (JS.lt (raw_temp w) 60);
    [rewrite (H60 eq_refl), !orb_true_r in *; settle_verdicts H v|clear H60].
  destruct (JS.lt (raw_temp w) 70);
    [rewrite (H70 eq_refl)|clear H70];
    destruct (JS.lt (Some temp) 60), (JS.lt (Some temp) 70),
      (JS.gt (raw_speed w) 15),
      (JS.includes (JS.toLowerCase text) "rain"),
      (JS.lt (visibility w) 1000); cbn [orb] in *;
    try settle_verdicts H v;
    destruct (JS.gt (raw_speed w) 10),
      (JS.includes (JS.toLowerCase text) "drizzle"); cbn [orb] in *;
    try settle_verdicts H v;
    (destruct (clouds w) as [c|]; [|discriminate H]);
    destruct (JS.gt (clouds_all c) 80); settle_verdicts H v.
Qed.

Lemma colder_air_never_milder_witness :
  exists v',
    getSafetyAssessment (with_temp fair_day 58%float)
    = Return (verdict_text v') /\
    severity V_GOOD <= severity v'.
Proof.
  apply (colder_air_never_milder fair_day 58%float V_GOOD);
    vm_compute; reflexivity.
Defined.

(** ** Missing readings in the display record *)

(** X20. A reading that the payload lacks is displayed as [NaN] wherever
    the display value is computed: temperature, feels-like, wind speed and
    visibility. Nothing is substituted for it. *)
Theorem missing_readings_display_NaN (w : OpenWeatherResponse)
  (shown : Result.Weather) :
  display w = Return shown ->
  (raw_temp w = None -> JS.isNaN (Result.temperature shown) = true) /\
  (raw_feels_like w = None -> JS.isNaN (Result.feelsLike shown) = true) /\
  (raw_speed w = None -> JS.isNaN (Result.windSpeed shown) = true) /\
  (visibility w = None -> JS.isNaN (Result.visibility shown) = true).
Proof.
  intros Hd. destruct (display_inv w shown Hd) as (Ht & Hf & Hs & _ & Hv).
  rewrite Ht, Hf, Hs, Hv.
  repeat split; intros ->; vm_compute; reflexivity.
Qed.

Lemma missing_readings_display_NaN_witness :
  exists shown,
    display (no_readings "Clear") = Return shown /\
    (raw_temp (no_readings "Clear") = None ->
     JS.isNaN (Result.temperature shown) = true) /\
    (raw_feels_like (no_readings "Clear") = None ->
     JS.isNaN (Result.feelsLike shown) = true) /\
    (raw_speed (no_readings "Clear") = None ->
     JS.isNaN (Result.windSpeed shown) = true) /\
    (visibility (no_readings "Clear") = None ->
     JS.isNaN (Result.visibility shown) = true).
Proof.
  eexists. split; [vm_compute; reflexivity|].
  apply (missing_readings_display_NaN (no_readings "Clear")).
  vm_compute. reflexivity.
Defined.
